(** * secure-memory: the attention workspace and the temporal event store

    A shallow embedding of
      - [server/consciousness/global_workspace.py]      ([GlobalWorkspaceSystem]),
      - [server/consciousness/temporal_consciousness.py] ([TemporalEvent],
        [TemporalConsciousnessSystem]),
      - [server/consciousness/consciousness_core.py]     ([ConsciousnessCore]:
        the status machine around the two stores),
    and the properties of these that the specification states.

    Conventions.
      - A Python [float] is an exact rational ([Q]); comparisons are the
        source's comparisons.  The one scenario that sits exactly on a
        classification boundary is also evaluated on IEEE binary64.
      - A [datetime] is a count of microseconds ([Z]); [total_seconds] turns a
        difference into seconds.
      - A Python [dict] is an insertion-ordered association list: assignment
        to a present key replaces the value in place, assignment to an absent
        key appends.
      - The clock is an input: every operation receives the readings of
        [time.time()] and [datetime.now()] it makes. *)

From Stdlib Require Import ZArith QArith Qabs Qminmax List String DecimalString DecimalZ Bool Lia Lqa.
From Stdlib Require Import Floats.
Import ListNotations.

Local Open Scope Q_scope.

(** ** Numbers *)

(** [a > b] on floats, as a boolean. *)
Definition Qgtb (a b : Q) : bool :=
  match a ?= b with Gt => true | _ => false end.

(** [min(1.0, x)]. *)
Definition min1 (x : Q) : Q := Qmin 1 x.

(** [len(d) / 10.0] and the like: a length as a float. *)
Definition Qlen {A : Type} (l : list A) : Q := inject_Z (Z.of_nat (List.length l)).

(** ** Time *)

(** A [datetime], in microseconds. *)
Definition datetime := Z.

(** [timedelta.total_seconds()]. *)
Definition total_seconds (delta : Z) : Q := Qmake delta 1000000.

(** The clock readings one recording or admission makes:
    [int(time.time() * 1000)] for the id and [datetime.now()] for the
    timestamp. *)
Record Clock : Type := mkClock {
  time_ms : Z;
  now : datetime
}.

(** ** The workspace: data *)

(** [class AttentionLevel(Enum)]. *)
Inductive AttentionLevel : Type :=
  | BACKGROUND
  | PERIPHERAL
  | FOCUSED
  | CONSCIOUS.

Definition AttentionLevel_eq_dec (a b : AttentionLevel) : {a = b} + {a <> b}.
Proof. decide equality. Defined.

Definition is_conscious (l : AttentionLevel) : bool :=
  match l with CONSCIOUS => true | _ => false end.

(** A value of a payload dict; the workspace never looks inside one. *)
Inductive PyValue : Type :=
  | PyInt (n : Z)
  | PyFloat (x : Q)
  | PyStr (s : string).

(** [Dict[str, Any]]: only its number of keys is read. *)
Definition Payload := list (string * PyValue).

(** [@dataclass class WorkspaceContent]. *)
Record WorkspaceContent : Type := mkWorkspaceContent {
  content_id : string;
  source_module : string;
  content_type : string;
  data : Payload;
  attention_level : AttentionLevel;
  timestamp : datetime;
  priority : Q;
  coherence_score : Q
}.

(** ** Dicts *)

Section Dict.
Context {V : Type}.

Definition dict := list (string * V).

(** [d.get(k)]. *)
Fixpoint dict_get (d : dict) (k : string) : option V :=
  match d with
  | [] => None
  | (k', v) :: d' => if String.eqb k k' then Some v else dict_get d' k
  end.

(** [d.get(k, default)]. *)
Definition dict_get_default (d : dict) (k : string) (default : V) : V :=
  match dict_get d k with Some v => v | None => default end.

(** [d[k] = v]. *)
Fixpoint dict_set (d : dict) (k : string) (v : V) : dict :=
  match d with
  | [] => [(k, v)]
  | (k', v') :: d' =>
      if String.eqb k k' then (k, v) :: d' else (k', v') :: dict_set d' k v
  end.

(** [k in d]. *)
Definition dict_mem (d : dict) (k : string) : bool :=
  match dict_get d k with Some _ => true | None => false end.

(** [d.values()] and [d.keys()], in insertion order. *)
Definition dict_values (d : dict) : list V := map snd d.
Definition dict_keys (d : dict) : list string := map fst d.

End Dict.
Arguments dict : clear implicits.

(** ** Identifiers *)

(** [f"{n}"] of an int: its decimal digits, with a minus sign when negative. *)
Definition string_of_Z (n : Z) : string :=
  NilZero.string_of_int (Z.to_int n).

(** [f"content_{int(time.time() * 1000)}"]. *)
Definition make_content_id (c : Clock) : string :=
  ("content_" ++ string_of_Z (time_ms c))%string.

(** [f"temporal_event_{int(time.time() * 1000)}"]. *)
Definition make_event_id (c : Clock) : string :=
  ("temporal_event_" ++ string_of_Z (time_ms c))%string.

(** ** The workspace: [GlobalWorkspaceSystem] *)

Module Workspace.

(** [self.consciousness_metrics]. *)
Record Metrics : Type := mkMetrics {
  coherence_level : Q;
  integration_depth : Q;
  attention_stability : Q;
  content_richness : Q
}.

Record t : Type := mkWorkspace {
  workspace_contents : dict WorkspaceContent;
  module_connections : dict Q;
  attention_focus : list string;
  consciousness_metrics : Metrics;
  initialized : bool
}.

(** [__init__]. *)
Definition init : t :=
  {| workspace_contents := [];
     module_connections := [];
     attention_focus := [];
     consciousness_metrics := mkMetrics 0 0 0 0;
     initialized := false |}.

Definition modules : list string :=
  [ "temporal_consciousness"; "social_cognition"; "creative_intelligence";
    "value_learning"; "virtue_learning"; "embodied_cognition";
    "intrinsic_motivation"; "autonomous_goals";
    "recursive_self_improvement" ]%string.

(** [_initialize_module_connections]. *)
Definition _initialize_module_connections (w : t) : t :=
  {| workspace_contents := workspace_contents w;
     module_connections :=
       fold_left (fun mc module => dict_set mc module 0.8) modules
                 (module_connections w);
     attention_focus := attention_focus w;
     consciousness_metrics := consciousness_metrics w;
     initialized := initialized w |}.

(** [initialize]: returns [True]. *)
Definition initialize (w : t) : bool * t :=
  let w1 := _initialize_module_connections w in
  (true,
   {| workspace_contents := workspace_contents w1;
      module_connections := module_connections w1;
      attention_focus := attention_focus w1;
      consciousness_metrics := consciousness_metrics w1;
      initialized := true |}).

(** [_calculate_coherence]. *)
Definition _calculate_coherence (w : t) (data : Payload) (source_module : string) : Q :=
  let data_richness := min1 (Qlen data / 10.0) in
  let module_strength := dict_get_default (module_connections w) source_module 0.5 in
  (data_richness + module_strength) / 2.0.

(** [_determine_attention_level]. *)
Definition _determine_attention_level (priority coherence_score : Q) : AttentionLevel :=
  let combined_score := (priority + coherence_score) / 2.0 in
  if Qgtb combined_score 0.8 then CONSCIOUS
  else if Qgtb combined_score 0.6 then FOCUSED
  else if Qgtb combined_score 0.4 then PERIPHERAL
  else BACKGROUND.

(** [x in l] on a list of ids. *)
Definition mem_id (x : string) (l : list string) : bool :=
  existsb (String.eqb x) l.

(** [l.remove(x)] when [x in l]: the first occurrence goes. *)
Fixpoint remove_first (x : string) (l : list string) : list string :=
  match l with
  | [] => []
  | y :: l' => if String.eqb x y then l' else y :: remove_first x l'
  end.

(** The loop of [_update_attention_focus] over [enumerate(self.attention_focus)]:
    the new id goes before the first entry whose content is present and has a
    strictly lower priority, and at the end when the loop finds none. *)
Fixpoint insert_by_priority (contents : dict WorkspaceContent) (p : Q)
    (cid : string) (focus : list string) : list string :=
  match focus with
  | [] => [cid]
  | existing_id :: rest =>
      match dict_get contents existing_id with
      | Some existing_content =>
          if Qgtb p (priority existing_content)
          then cid :: existing_id :: rest
          else existing_id :: insert_by_priority contents p cid rest
      | None => existing_id :: insert_by_priority contents p cid rest
      end
  end.

(** [_update_attention_focus]. *)
Definition _update_attention_focus (w : t) (cid : string) : t :=
  match dict_get (workspace_contents w) cid with
  | None => w
  | Some content =>
      let focus1 :=
        if mem_id cid (attention_focus w)
        then remove_first cid (attention_focus w)
        else attention_focus w in
      let focus2 :=
        match attention_level content with
        | CONSCIOUS => cid :: focus1
        | _ => insert_by_priority (workspace_contents w) (priority content) cid focus1
        end in
      let focus3 :=
        if (50 <? List.length focus2)%nat then firstn 50 focus2 else focus2 in
      {| workspace_contents := workspace_contents w;
         module_connections := module_connections w;
         attention_focus := focus3;
         consciousness_metrics := consciousness_metrics w;
         initialized := initialized w |}
  end.

(** [add_content]: returns the new id.  [_broadcast_content] only logs. *)
Definition add_content (w : t) (c : Clock) (source_module content_type : string)
    (data : Payload) (priority : Q) : string * t :=
  let content_id := make_content_id c in
  let coherence_score := _calculate_coherence w data source_module in
  let attention_level := _determine_attention_level priority coherence_score in
  let content :=
    {| content_id := content_id;
       source_module := source_module;
       content_type := content_type;
       data := data;
       attention_level := attention_level;
       timestamp := now c;
       priority := priority;
       coherence_score := coherence_score |} in
  let w1 :=
    {| workspace_contents := dict_set (workspace_contents w) content_id content;
       module_connections := module_connections w;
       attention_focus := attention_focus w;
       consciousness_metrics := consciousness_metrics w;
       initialized := initialized w |} in
  (content_id, _update_attention_focus w1 content_id).

(** [get_conscious_contents]. *)
Definition get_conscious_contents (w : t) : list WorkspaceContent :=
  filter (fun content => is_conscious (attention_level content))
         (dict_values (workspace_contents w)).

End Workspace.

(** ** The workspace: metrics and snapshot *)

Module WorkspaceState.
Import Workspace.

(** [sum(xs)]. *)
Definition Qsum (xs : list Q) : Q := fold_left Qplus xs 0.

(** [len(set(xs))] for strings. *)
Definition count_distinct (xs : list string) : nat :=
  List.length (nodup string_dec xs).

(** The ages, in seconds, of the first five focus entries that are still in
    the contents. *)
Definition focus_ages (w : t) (current_time : datetime) : list Q :=
  flat_map
    (fun cid =>
       match dict_get (workspace_contents w) cid with
       | Some content => [total_seconds (current_time - timestamp content)]
       | None => []
       end)
    (firstn 5 (attention_focus w)).

(** [_update_consciousness_metrics].  The means are exact here; the
    floating-point [sum(...) / len(...)] of the code can differ from them in
    the last place, so a mean of equal scores can come out one unit above the
    score. *)
Definition _update_consciousness_metrics (w : t) (current_time : datetime) : t :=
  match workspace_contents w with
  | [] => w
  | _ :: _ =>
      let contents := dict_values (workspace_contents w) in
      let conscious_contents :=
        filter (fun c => is_conscious (attention_level c)) contents in
      let m := consciousness_metrics w in
      let coherence_level' :=
        match conscious_contents with
        | [] => coherence_level m
        | _ :: _ =>
            Qsum (map coherence_score conscious_contents) / Qlen conscious_contents
        end in
      let unique_modules := count_distinct (map source_module conscious_contents) in
      let integration_depth' :=
        min1 (inject_Z (Z.of_nat unique_modules) / 10.0) in
      let attention_stability' :=
        match attention_focus w with
        | [] => attention_stability m
        | _ :: _ =>
            let ages := focus_ages w current_time in
            let avg_age :=
              match ages with
              | [] => 0
              | _ :: _ => Qsum ages / Qlen ages
              end in
            min1 (avg_age / 300.0)
        end in
      let content_types := count_distinct (map content_type contents) in
      let content_richness' :=
        min1 (inject_Z (Z.of_nat content_types) / 15.0) in
      {| workspace_contents := workspace_contents w;
         module_connections := module_connections w;
         attention_focus := attention_focus w;
         consciousness_metrics :=
           {| coherence_level := coherence_level';
              integration_depth := integration_depth';
              attention_stability := attention_stability';
              content_richness := content_richness' |};
         initialized := initialized w |}
  end.

(** One entry of ['contents_by_attention']. *)
Record ContentSummary : Type := mkContentSummary {
  sum_content_id : string;
  sum_source_module : string;
  sum_content_type : string;
  sum_priority : Q;
  sum_coherence_score : Q;
  sum_timestamp : datetime
}.

Definition summarize (c : WorkspaceContent) : ContentSummary :=
  {| sum_content_id := content_id c;
     sum_source_module := source_module c;
     sum_content_type := content_type c;
     sum_priority := priority c;
     sum_coherence_score := coherence_score c;
     sum_timestamp := timestamp c |}.

(** The dict [get_workspace_state] returns when the system is initialized. *)
Record Snapshot : Type := mkSnapshot {
  snap_consciousness_metrics : Metrics;
  snap_contents_by_attention : list (AttentionLevel * list ContentSummary);
  snap_attention_focus : list string;
  snap_module_connections : dict Q;
  snap_total_contents : nat
}.

Inductive Result : Type :=
  | Error (msg : string)
  | State (s : Snapshot).

Definition levels : list AttentionLevel :=
  [BACKGROUND; PERIPHERAL; FOCUSED; CONSCIOUS].

(** [get_workspace_state]: it recomputes the metrics first, so it returns the
    workspace too. *)
Definition get_workspace_state (w : t) (current_time : datetime) : Result * t :=
  if negb (initialized w)
  then (Error "Global workspace system not initialized", w)
  else
    let w1 := _update_consciousness_metrics w current_time in
    let by_level (level : AttentionLevel) :=
      map summarize
          (filter (fun c => if AttentionLevel_eq_dec (attention_level c) level
                            then true else false)
                  (dict_values (workspace_contents w1))) in
    (State
       {| snap_consciousness_metrics := consciousness_metrics w1;
          snap_contents_by_attention := map (fun l => (l, by_level l)) levels;
          snap_attention_focus := firstn 10 (attention_focus w1);
          snap_module_connections := module_connections w1;
          snap_total_contents := List.length (workspace_contents w1) |},
     w1).

End WorkspaceState.

(** ** Temporal events: [TemporalEvent] *)

(** [class TemporalScale(Enum)]. *)
Inductive TemporalScale : Type :=
  | IMMEDIATE
  | SHORT_TERM
  | MEDIUM_TERM
  | LONG_TERM
  | EXISTENTIAL.

(** [@dataclass class TemporalEvent]. *)
Record TemporalEvent : Type := mkTemporalEvent {
  event_id : string;
  ev_timestamp : datetime;
  event_type : string;
  description : string;
  significance : Q;
  emotional_valence : Q;
  causal_relations : list string;
  narrative_context : Payload;
  memory_strength : Q;
  temporal_scale : TemporalScale
}.

(** The [scale_factors] table of [calculate_temporal_distance], in seconds. *)
Definition scale_factor (s : TemporalScale) : Q :=
  match s with
  | IMMEDIATE => 1.0
  | SHORT_TERM => 3600.0
  | MEDIUM_TERM => 86400.0
  | LONG_TERM => 2592000.0
  | EXISTENTIAL => 31536000.0
  end.

(** [TemporalEvent.calculate_temporal_distance]. *)
Definition calculate_temporal_distance (e : TemporalEvent) (reference_time : datetime) : Q :=
  let time_diff := Qabs (total_seconds (ev_timestamp e - reference_time)) in
  let normalized_distance := time_diff / scale_factor (temporal_scale e) in
  min1 normalized_distance.

(** The [relevance_score] of [is_temporally_relevant]. *)
Definition relevance_score (significance memory_strength temporal_distance : Q) : Q :=
  (significance * memory_strength) / (1.0 + temporal_distance).

(** The comparison of [is_temporally_relevant], on the three numbers. *)
Definition is_relevant (significance memory_strength temporal_distance
    relevance_threshold : Q) : bool :=
  Qgtb (relevance_score significance memory_strength temporal_distance)
       relevance_threshold.

(** [TemporalEvent.is_temporally_relevant]; the default threshold is [0.5]. *)
Definition is_temporally_relevant (e : TemporalEvent) (reference_time : datetime)
    (relevance_threshold : Q) : bool :=
  let temporal_distance := calculate_temporal_distance e reference_time in
  is_relevant (significance e) (memory_strength e) temporal_distance
              relevance_threshold.

Definition default_relevance_threshold : Q := 0.5.

(** ** The event store: [TemporalConsciousnessSystem] *)

Module Temporal.

(** The [experience_data] dict, by the keys the system reads. *)
Record Experience : Type := mkExperience {
  exp_type : option string;
  exp_description : option string;
  exp_emotional_valence : option Q;
  exp_causal_relations : option (list string);
  exp_narrative_context : option Payload;
  exp_temporal_scale : option TemporalScale;
  exp_significance : option Q
}.

(** [self.present_moment_awareness]; [temporal_focus] stays [PRESENT]. *)
Record PresentMoment : Type := mkPresentMoment {
  current_time : datetime;
  active_narratives : list string;
  ongoing_experiences : list string;
  temporal_continuity : Q
}.

(** [self.temporal_metrics]. *)
Record Metrics : Type := mkMetrics {
  events_processed : Z;
  narratives_formed : Z;
  projections_made : Z;
  temporal_coherence : Q;
  autobiographical_continuity : Q;
  future_planning_depth : Q;
  identity_coherence : Q
}.

Record t : Type := mkTemporal {
  temporal_events : dict TemporalEvent;
  narrative_structures : dict PyValue;
  temporal_projections : dict PyValue;
  present_moment_awareness : PresentMoment;
  temporal_metrics : Metrics;
  initialized : bool
}.

Definition fresh_present_moment (t0 : datetime) : PresentMoment :=
  {| current_time := t0;
     active_narratives := [];
     ongoing_experiences := [];
     temporal_continuity := 1.0 |}.

(** [__init__]. *)
Definition init (t0 : datetime) : t :=
  {| temporal_events := [];
     narrative_structures := [];
     temporal_projections := [];
     present_moment_awareness := fresh_present_moment t0;
     temporal_metrics := mkMetrics 0 0 0 0 0 0 0;
     initialized := false |}.

Definition str_in (x : string) (l : list string) : bool :=
  existsb (String.eqb x) l.

(** [_determine_temporal_scale]. *)
Definition _determine_temporal_scale (x : Experience) : TemporalScale :=
  match exp_temporal_scale x with
  | Some s => s
  | None =>
      let ty := match exp_type x with Some ty => ty | None => "experience"%string end in
      if str_in ty ["initialization"; "identity_formation"]%string then EXISTENTIAL
      else if str_in ty ["learning"; "goal_formation"]%string then LONG_TERM
      else if str_in ty ["interaction"; "decision"]%string then MEDIUM_TERM
      else SHORT_TERM
  end.

(** [_identify_causal_relations]. *)
Definition _identify_causal_relations (x : Experience) : list string :=
  match exp_causal_relations x with Some l => l | None => [] end.

(** [process_temporal_experience]: returns the new id.  The clock is read
    for the id, for the event's timestamp and, after the event is stored, for
    [current_time]. *)
Definition process_temporal_experience (s : t) (c : Clock) (now_after : datetime)
    (x : Experience) (significance : Q) : string * t :=
  let event_id := make_event_id c in
  let temporal_scale := _determine_temporal_scale x in
  let temporal_event :=
    {| event_id := event_id;
       ev_timestamp := now c;
       event_type := match exp_type x with Some ty => ty | None => "experience"%string end;
       description :=
         match exp_description x with
         | Some d => d
         | None => ("Temporal experience: " ++ event_id)%string
         end;
       significance := significance;
       emotional_valence :=
         match exp_emotional_valence x with Some v => v | None => 0.0 end;
       causal_relations := _identify_causal_relations x;
       narrative_context :=
         match exp_narrative_context x with Some n => n | None => [] end;
       memory_strength := 1.0;
       temporal_scale := temporal_scale |} in
  let m := temporal_metrics s in
  let p := present_moment_awareness s in
  (event_id,
   {| temporal_events := dict_set (temporal_events s) event_id temporal_event;
      narrative_structures := narrative_structures s;
      temporal_projections := temporal_projections s;
      present_moment_awareness :=
        {| current_time := now_after;
           active_narratives := active_narratives p;
           ongoing_experiences := ongoing_experiences p ++ [event_id];
           temporal_continuity := temporal_continuity p |};
      temporal_metrics :=
        {| events_processed := (events_processed m + 1)%Z;
           narratives_formed := narratives_formed m;
           projections_made := projections_made m;
           temporal_coherence := temporal_coherence m;
           autobiographical_continuity := autobiographical_continuity m;
           future_planning_depth := future_planning_depth m;
           identity_coherence := identity_coherence m |};
      initialized := initialized s |}).

Definition default_significance : Q := 0.5.

(** [_initialize_present_moment]. *)
Definition _initialize_present_moment (s : t) (t0 : datetime) : t :=
  {| temporal_events := temporal_events s;
     narrative_structures := narrative_structures s;
     temporal_projections := temporal_projections s;
     present_moment_awareness := fresh_present_moment t0;
     temporal_metrics := temporal_metrics s;
     initialized := initialized s |}.

(** The three dicts of [_create_foundational_events]. *)
Definition foundational_events : list Experience :=
  [ {| exp_type := Some "initialization"%string;
       exp_description :=
         Some "System initialization and beginning of consciousness"%string;
       exp_emotional_valence := None; exp_causal_relations := None;
       exp_narrative_context := None;
       exp_temporal_scale := Some EXISTENTIAL;
       exp_significance := Some 1.0 |};
    {| exp_type := Some "first_awareness"%string;
       exp_description := Some "First moment of temporal awareness"%string;
       exp_emotional_valence := None; exp_causal_relations := None;
       exp_narrative_context := None;
       exp_temporal_scale := Some LONG_TERM;
       exp_significance := Some 0.9 |};
    {| exp_type := Some "identity_formation_start"%string;
       exp_description := Some "Beginning of identity formation process"%string;
       exp_emotional_valence := None; exp_causal_relations := None;
       exp_narrative_context := None;
       exp_temporal_scale := Some LONG_TERM;
       exp_significance := Some 0.8 |} ].

(** The clock readings of one initialization: the one of
    [_initialize_present_moment] and, for each foundational event, those of its
    recording. *)
Record InitClock : Type := mkInitClock {
  ic_present : datetime;
  ic_first : Clock * datetime;
  ic_second : Clock * datetime;
  ic_third : Clock * datetime
}.

Definition ic_readings (ic : InitClock) : list (Clock * datetime) :=
  [ic_first ic; ic_second ic; ic_third ic].

(** [event_data['significance']]: every foundational dict has the key. *)
Definition significance_of (x : Experience) : Q :=
  match exp_significance x with Some v => v | None => default_significance end.

(** [_create_foundational_events]: the loop over the three dicts. *)
Definition _create_foundational_events (s : t) (ic : InitClock) : t :=
  fold_left
    (fun acc (xr : Experience * (Clock * datetime)) =>
       let '(x, (c, now_after)) := xr in
       snd (process_temporal_experience acc c now_after x (significance_of x)))
    (combine foundational_events (ic_readings ic))
    s.

(** [initialize]: returns [True]. *)
Definition initialize (s : t) (ic : InitClock) : bool * t :=
  let s1 := _initialize_present_moment s (ic_present ic) in
  let s2 := _create_foundational_events s1 ic in
  (true,
   {| temporal_events := temporal_events s2;
      narrative_structures := narrative_structures s2;
      temporal_projections := temporal_projections s2;
      present_moment_awareness := present_moment_awareness s2;
      temporal_metrics := temporal_metrics s2;
      initialized := true |}).

End Temporal.

(** ** The event store: metrics and the recent-events query *)

Module TemporalState.
Import Temporal.

Definition Qsum (xs : list Q) : Q := fold_left Qplus xs 0.

(** [_update_temporal_metrics]. *)
Definition _update_temporal_metrics (s : t) (t_now : datetime) : t :=
  match temporal_events s with
  | [] => s
  | _ :: _ =>
      let events := dict_values (temporal_events s) in
      let recent_events :=
        filter (fun e => Qgtb 3600 (total_seconds (t_now - ev_timestamp e))) events in
      let m := temporal_metrics s in
      let temporal_coherence' :=
        match recent_events with
        | [] => temporal_coherence m
        | _ :: _ => Qsum (map significance recent_events) / Qlen recent_events
        end in
      {| temporal_events := temporal_events s;
         narrative_structures := narrative_structures s;
         temporal_projections := temporal_projections s;
         present_moment_awareness := present_moment_awareness s;
         temporal_metrics :=
           {| events_processed := events_processed m;
              narratives_formed := narratives_formed m;
              projections_made := projections_made m;
              temporal_coherence := temporal_coherence';
              autobiographical_continuity := min1 (Qlen (temporal_events s) / 100);
              future_planning_depth := min1 (Qlen (temporal_projections s) / 50);
              identity_coherence := min1 (Qlen (narrative_structures s) / 20) |};
         initialized := initialized s |}
  end.

(** [sorted(events, key=lambda e: e.timestamp, reverse=True)]: a stable sort,
    so events with one timestamp keep the order they had. *)
Fixpoint insert_desc (e : TemporalEvent) (l : list TemporalEvent) : list TemporalEvent :=
  match l with
  | [] => [e]
  | h :: l' =>
      if (ev_timestamp h <? ev_timestamp e)%Z then e :: h :: l'
      else h :: insert_desc e l'
  end.

Definition sorted_desc (l : list TemporalEvent) : list TemporalEvent :=
  fold_left (fun acc e => insert_desc e acc) l [].

(** The most recent [n] events, newest first: the [recent_events] of
    [get_temporal_consciousness_state], which takes [n = 20]. *)
Definition recent_events (s : t) (n : nat) : list TemporalEvent :=
  firstn n (sorted_desc (dict_values (temporal_events s))).

(** One entry of ['recent_events']. *)
Record EventSummary : Type := mkEventSummary {
  sum_event_id : string;
  sum_type : string;
  sum_description : string;
  sum_significance : Q;
  sum_temporal_scale : TemporalScale;
  sum_time_ago : Q
}.

(** [description[:100] + "..." if len(description) > 100 else description]. *)
Definition clip_description (d : string) : string :=
  if (100 <? String.length d)%nat then (String.substring 0 100 d ++ "...")%string
  else d.

Definition summarize (t_now : datetime) (e : TemporalEvent) : EventSummary :=
  {| sum_event_id := event_id e;
     sum_type := event_type e;
     sum_description := clip_description (description e);
     sum_significance := significance e;
     sum_temporal_scale := temporal_scale e;
     sum_time_ago := total_seconds (t_now - ev_timestamp e) |}.

Record Snapshot : Type := mkSnapshot {
  snap_present_moment_awareness : PresentMoment;
  snap_recent_events : list EventSummary;
  snap_temporal_metrics : Metrics
}.

Inductive Result : Type :=
  | Error (msg : string)
  | State (s : Snapshot).

(** [get_temporal_consciousness_state]. *)
Definition get_temporal_consciousness_state (s : t) (t_now : datetime) : Result * t :=
  if negb (initialized s)
  then (Error "Temporal consciousness system not initialized", s)
  else
    let s1 := _update_temporal_metrics s t_now in
    (State
       {| snap_present_moment_awareness := present_moment_awareness s1;
          snap_recent_events := map (summarize t_now) (recent_events s1 20);
          snap_temporal_metrics := temporal_metrics s1 |},
     s1).

End TemporalState.

(** ** The orchestrator: [ConsciousnessCore] *)

Module Core.

(** [self.system_status]. *)
Inductive SystemStatus : Type :=
  | inactive
  | active
  | paused
  | error
  | emergency_stop_status.

Definition is_active (s : SystemStatus) : bool :=
  match s with active => true | _ => false end.

Definition is_emergency_stop (s : SystemStatus) : bool :=
  match s with emergency_stop_status => true | _ => false end.

(** An entry of [self.activity_logs], without its uuid and timestamp. *)
Record Activity : Type := mkActivity {
  act_module_id : string;
  act_activity_type : string;
  act_severity : string
}.

(** The two stores, the status and what else the control operations write.
    The five other modules ([social_cognition], [creative_intelligence],
    [value_learning], [virtue_learning], [safety_monitor]) hold state of their
    own and reach neither store. *)
Record t : Type := mkCore {
  temporal_consciousness : Temporal.t;
  global_workspace : Workspace.t;
  system_status : SystemStatus;
  activity_logs : list Activity;
  monitoring_enabled : bool;
  initialized : bool
}.

(** [__init__]. *)
Definition init (t0 : datetime) : t :=
  {| temporal_consciousness := Temporal.init t0;
     global_workspace := Workspace.init;
     system_status := inactive;
     activity_logs := [];
     monitoring_enabled := false;
     initialized := false |}.

(** [l[-1000:]]. *)
Definition last_n {A : Type} (n : nat) (l : list A) : list A :=
  skipn (List.length l - n) l.

(** [_log_activity]. *)
Definition _log_activity (st : t) (module_id activity_type severity : string) : t :=
  let logs := activity_logs st ++ [mkActivity module_id activity_type severity] in
  {| temporal_consciousness := temporal_consciousness st;
     global_workspace := global_workspace st;
     system_status := system_status st;
     activity_logs :=
       if (1000 <? List.length logs)%nat then last_n 1000 logs else logs;
     monitoring_enabled := monitoring_enabled st;
     initialized := initialized st |}.

Definition set_status (st : t) (s : SystemStatus) : t :=
  {| temporal_consciousness := temporal_consciousness st;
     global_workspace := global_workspace st;
     system_status := s;
     activity_logs := activity_logs st;
     monitoring_enabled := monitoring_enabled st;
     initialized := initialized st |}.

Definition set_monitoring (st : t) (b : bool) : t :=
  {| temporal_consciousness := temporal_consciousness st;
     global_workspace := global_workspace st;
     system_status := system_status st;
     activity_logs := activity_logs st;
     monitoring_enabled := b;
     initialized := initialized st |}.

(** [_start_monitoring]: it returns at once while the monitoring thread of an
    earlier start is alive, and enables monitoring and starts the thread
    otherwise.  Whether that thread is alive
    ([self.monitoring_thread and self.monitoring_thread.is_alive()]) is read
    from the environment, as the clock is. *)
Definition _start_monitoring (st : t) (thread_alive : bool) : t :=
  if thread_alive then st else set_monitoring st true.

(** [initialize]: every module's [initialize] runs, in the order of
    [self.modules]; the five modules outside the model return [True]. *)
Definition initialize (st : t) (ic : Temporal.InitClock) (thread_alive : bool)
    : bool * t :=
  let '(r_temporal, tc) := Temporal.initialize (temporal_consciousness st) ic in
  let '(r_workspace, gw) := Workspace.initialize (global_workspace st) in
  let initialization_results :=
    [r_temporal; r_workspace; true; true; true; true; true] in
  let successful_modules := List.length (filter (fun r => r) initialization_results) in
  let total_modules := List.length initialization_results in
  let st1 :=
    {| temporal_consciousness := tc;
       global_workspace := gw;
       system_status := system_status st;
       activity_logs := activity_logs st;
       monitoring_enabled := monitoring_enabled st;
       initialized := initialized st |} in
  if (successful_modules =? 0)%nat then (false, set_status st1 error)
  else
    let st2 := set_status st1 active in
    let st3 := _start_monitoring st2 thread_alive in
    let st4 := _log_activity st3 "system" "initialization" "info" in
    (true,
     {| temporal_consciousness := temporal_consciousness st4;
        global_workspace := global_workspace st4;
        system_status := system_status st4;
        activity_logs := activity_logs st4;
        monitoring_enabled := monitoring_enabled st4;
        initialized := true |}).

(** What [process_experience] returns. *)
Inductive ExperienceResult : Type :=
  | NotActive              (* {'error': 'System not active'} *)
  | Failed (msg : string). (* {'error': str(e)} *)

(** [process_experience].  When the system is active the temporal store records
    the experience (with the default significance); the next step looks up
    [self.global_workspace.update_workspace], an attribute
    [GlobalWorkspaceSystem] does not have, so the [except] branch logs the
    failure and returns its message. *)
Definition process_experience (st : t) (c : Clock) (now_after : datetime)
    (x : Temporal.Experience) : ExperienceResult * t :=
  if negb (initialized st) || negb (is_active (system_status st))
  then (NotActive, st)
  else
    let '(_, tc) :=
      Temporal.process_temporal_experience (temporal_consciousness st) c now_after x
        Temporal.default_significance in
    let st1 :=
      {| temporal_consciousness := tc;
         global_workspace := global_workspace st;
         system_status := system_status st;
         activity_logs := activity_logs st;
         monitoring_enabled := monitoring_enabled st;
         initialized := initialized st |} in
    (Failed "'GlobalWorkspaceSystem' object has no attribute 'update_workspace'",
     _log_activity st1 "core" "experience_processing" "error").

(** [emergency_stop]: neither store has a [cleanup] method, so the loop over
    the modules leaves both as they are. *)
Definition emergency_stop (st : t) : bool * t :=
  let st1 := set_monitoring (set_status st emergency_stop_status) false in
  (true, _log_activity st1 "system" "emergency_stop" "critical").

(** [resume_system]. *)
Definition resume_system (st : t) (ic : Temporal.InitClock) (thread_alive : bool)
    : bool * t :=
  if is_emergency_stop (system_status st) then initialize st ic thread_alive
  else
    let st1 := set_monitoring (set_status st active) true in
    let st2 := _start_monitoring st1 thread_alive in
    (true, _log_activity st2 "system" "resume" "info").

(** [pause_system]. *)
Definition pause_system (st : t) : bool * t :=
  (true, _log_activity (set_status st paused) "system" "pause" "info").

(** The workspace snapshot and the recent-events query, through the core. *)
Definition total_contents (st : t) : nat :=
  List.length (Workspace.workspace_contents (global_workspace st)).

Definition recent_events (st : t) (n : nat) : list TemporalEvent :=
  TemporalState.recent_events (temporal_consciousness st) n.

(** The commands of the core, with the readings of the clock and of the
    monitoring thread each one makes. *)
Inductive Command : Type :=
  | Initialize (ic : Temporal.InitClock) (thread_alive : bool)
  | ProcessExperience (c : Clock) (now_after : datetime) (x : Temporal.Experience)
  | EmergencyStop
  | Resume (ic : Temporal.InitClock) (thread_alive : bool)
  | Pause.

Definition run (st : t) (cmd : Command) : t :=
  match cmd with
  | Initialize ic thread_alive => snd (initialize st ic thread_alive)
  | ProcessExperience c now_after x => snd (process_experience st c now_after x)
  | EmergencyStop => snd (emergency_stop st)
  | Resume ic thread_alive => snd (resume_system st ic thread_alive)
  | Pause => snd (pause_system st)
  end.

(** The states the commands reach from a fresh core. *)
Inductive reachable : t -> Prop :=
  | reachable_init (t0 : datetime) : reachable (init t0)
  | reachable_run (st : t) (cmd : Command) :
      reachable st -> reachable (run st cmd).

End Core.

(** * Properties *)

(** ** Numbers *)

Lemma Qgtb_true (a b : Q) : Qgtb a b = true <-> b < a.
Proof.
  unfold Qgtb. rewrite Qgt_alt.
  destruct (a ?= b); split; congruence.
Qed.

Lemma Qgtb_false (a b : Q) : Qgtb a b = false <-> a <= b.
Proof.
  unfold Qgtb. rewrite Qle_alt.
  destruct (a ?= b); split; congruence.
Qed.

Lemma min1_le_1 (x : Q) : min1 x <= 1.
Proof. apply Q.le_min_l. Qed.

Lemma min1_nonneg (x : Q) : 0 <= x -> 0 <= min1 x.
Proof. intros H. unfold min1. apply Q.min_glb; [lra | exact H]. Qed.

Lemma min1_mono (x y : Q) : x <= y -> min1 x <= min1 y.
Proof. intros H. unfold min1. apply Q.min_le_compat_l. exact H. Qed.


(** ** Dicts *)

Section DictFacts.
Context {V : Type}.
Implicit Types (d : dict V) (k : string) (v : V).

Lemma dict_get_set_same d k v : dict_get (dict_set d k v) k = Some v.
Proof.
  induction d as [|[k' v'] d IH]; simpl.
  - now rewrite String.eqb_refl.
  - destruct (String.eqb k k') eqn:E; simpl; rewrite ?E, ?String.eqb_refl; auto.
Qed.

Lemma dict_get_set_other d k k' v :
  k' <> k -> dict_get (dict_set d k v) k' = dict_get d k'.
Proof.
  intros Hne. induction d as [|[k0 v0] d IH]; simpl.
  - apply String.eqb_neq in Hne. now rewrite Hne.
  - destruct (String.eqb k k0) eqn:E; simpl.
    + apply String.eqb_eq in E. subst k0.
      apply String.eqb_neq in Hne. now rewrite Hne.
    + destruct (String.eqb k' k0); auto.
Qed.

(** Assignment keeps every key: a present key stays where it is. *)
Lemma dict_set_keeps_keys d k k' v :
  dict_mem d k' = true -> dict_mem (dict_set d k v) k' = true.
Proof.
  unfold dict_mem. intros H.
  destruct (string_dec k' k) as [->|Hne].
  - now rewrite dict_get_set_same.
  - now rewrite dict_get_set_other.
Qed.

Lemma dict_set_length_present d k v :
  dict_mem d k = true -> List.length (dict_set d k v) = List.length d.
Proof.
  unfold dict_mem. induction d as [|[k' v'] d IH]; simpl; [discriminate|].
  destruct (String.eqb k k') eqn:E; simpl; auto.
Qed.

Lemma dict_set_length_absent d k v :
  dict_mem d k = false -> List.length (dict_set d k v) = S (List.length d).
Proof.
  unfold dict_mem. induction d as [|[k' v'] d IH]; simpl; [reflexivity|].
  destruct (String.eqb k k') eqn:E; simpl; [discriminate|auto].
Qed.

Lemma dict_set_length_ge d k v :
  (List.length d <= List.length (dict_set d k v))%nat.
Proof.
  destruct (dict_mem d k) eqn:E.
  - rewrite dict_set_length_present by exact E. lia.
  - rewrite dict_set_length_absent by exact E. lia.
Qed.

Lemma dict_set_nonempty d k v : dict_set d k v <> [].
Proof.
  destruct d as [|[k' v'] d]; simpl; [discriminate|].
  destruct (String.eqb k k'); discriminate.
Qed.

(** Every value of the dict after an assignment is the new value or was a
    value before. *)
Lemma dict_set_values d k v x :
  In x (dict_values (dict_set d k v)) -> x = v \/ In x (dict_values d).
Proof.
  unfold dict_values. induction d as [|[k' v'] d IH]; simpl.
  - intros [H|[]]; auto.
  - destruct (String.eqb k k'); simpl; intros [H|H]; auto.
    destruct (IH H); auto.
Qed.

End DictFacts.

(** ** Classification *)

Import Workspace.

Lemma update_attention_focus_contents (w : Workspace.t) (cid : string) :
  workspace_contents (_update_attention_focus w cid) = workspace_contents w.
Proof.
  unfold _update_attention_focus.
  destruct (dict_get (workspace_contents w) cid); reflexivity.
Qed.

Lemma update_attention_focus_connections (w : Workspace.t) (cid : string) :
  module_connections (_update_attention_focus w cid) = module_connections w.
Proof.
  unfold _update_attention_focus.
  destruct (dict_get (workspace_contents w) cid); reflexivity.
Qed.

(** The content an admission creates. *)
Definition admitted_content (w : Workspace.t) (c : Clock)
    (source_module content_type : string) (data : Payload) (priority : Q)
    : WorkspaceContent :=
  let coherence_score := _calculate_coherence w data source_module in
  {| content_id := make_content_id c;
     source_module := source_module;
     content_type := content_type;
     data := data;
     attention_level := _determine_attention_level priority coherence_score;
     timestamp := now c;
     priority := priority;
     coherence_score := coherence_score |}.

Lemma add_content_id w c sm ct data p :
  fst (add_content w c sm ct data p) = make_content_id c.
Proof. reflexivity. Qed.

Lemma add_content_contents w c sm ct data p :
  workspace_contents (snd (add_content w c sm ct data p)) =
  dict_set (workspace_contents w) (make_content_id c)
           (admitted_content w c sm ct data p).
Proof.
  unfold add_content. cbv zeta. unfold snd.
  rewrite update_attention_focus_contents. reflexivity.
Qed.

Lemma add_content_stored w c sm ct data p :
  dict_get (workspace_contents (snd (add_content w c sm ct data p)))
           (fst (add_content w c sm ct data p))
  = Some (admitted_content w c sm ct data p).
Proof.
  rewrite add_content_contents, add_content_id. apply dict_get_set_same.
Qed.

(** The thresholds are strict: a combined score of exactly 0.8, 0.6 or 0.4
    falls into the bucket below. *)
Lemma classification_boundaries_strict (p coh : Q) :
  ((p + coh) / 2.0 == 0.8 -> _determine_attention_level p coh = FOCUSED) /\
  ((p + coh) / 2.0 == 0.6 -> _determine_attention_level p coh = PERIPHERAL) /\
  ((p + coh) / 2.0 == 0.4 -> _determine_attention_level p coh = BACKGROUND).
Proof.
  unfold _determine_attention_level.
  repeat split; intros H; cbv zeta;
    repeat match goal with
    | |- context [Qgtb ?a ?b] =>
        let E := fresh "E" in
        destruct (Qgtb a b) eqn:E;
        [apply Qgtb_true in E | apply Qgtb_false in E]
    end; try reflexivity; exfalso; lra.
Qed.

(** C6.  Admitting an item from the unknown producer "moduleA" with a one-key
    payload and priority 0.9 gives coherence (min(1, 1/10) + 0.5) / 2 = 0.3
    and combined score (0.9 + 0.3) / 2 = 0.6, and the item is Peripheral, not
    Focused; the thresholds are strict, so a combined score of exactly 0.8 is
    not Conscious, exactly 0.6 is not Focused and exactly 0.4 is not
    Peripheral. *)
Theorem moduleA_scenario_is_peripheral (w : Workspace.t) (c : Clock)
    (key : string) (v : PyValue) :
  dict_get (module_connections w) "moduleA" = None ->
  let r := add_content w c "moduleA" "event" [(key, v)] 0.9 in
  (exists content,
      dict_get (workspace_contents (snd r)) (fst r) = Some content /\
      coherence_score content == 0.3 /\
      (priority content + coherence_score content) / 2.0 == 0.6 /\
      attention_level content = PERIPHERAL /\
      attention_level content <> FOCUSED) /\
  (forall p coh,
      ((p + coh) / 2.0 == 0.8 -> _determine_attention_level p coh <> CONSCIOUS) /\
      ((p + coh) / 2.0 == 0.6 -> _determine_attention_level p coh <> FOCUSED) /\
      ((p + coh) / 2.0 == 0.4 -> _determine_attention_level p coh <> PERIPHERAL)).
Proof.
  intros Hunknown r. split.
  - exists (admitted_content w c "moduleA" "event" [(key, v)] 0.9).
    split; [apply add_content_stored|].
    assert (Hcoh : _calculate_coherence w [(key, v)] "moduleA" = (min1 (1 / 10.0) + 0.5) / 2.0).
    { unfold _calculate_coherence, dict_get_default. now rewrite Hunknown. }
    unfold admitted_content; cbn [coherence_score priority attention_level].
    rewrite Hcoh. repeat split; try reflexivity; vm_compute; congruence.
  - intros p coh.
    destruct (classification_boundaries_strict p coh) as (H8 & H6 & H4).
    repeat split; intros H;
      [rewrite (H8 H) | rewrite (H6 H) | rewrite (H4 H)]; discriminate.
Qed.

Lemma moduleA_scenario_is_peripheral_witness :
  let w := snd (Workspace.initialize Workspace.init) in
  let r := add_content w (mkClock 1730000000123%Z 1730000000123456%Z)
                       "moduleA" "event" [("x"%string, PyInt 1)] 0.9 in
  exists content,
    dict_get (workspace_contents (snd r)) (fst r) = Some content /\
    attention_level content = PERIPHERAL.
Proof.
  destruct (moduleA_scenario_is_peripheral
              (snd (Workspace.initialize Workspace.init))
              (mkClock 1730000000123%Z 1730000000123456%Z) "x"%string (PyInt 1)
              eq_refl) as [(content & Hget & _ & _ & Hlevel & _) _].
  exists content. split; assumption.
Defined.

(** The same scenario on IEEE binary64, the arithmetic of a Python [float]:
    the combined score is the double nearest 0.6, which is not above the
    threshold 0.6 and is above 0.4. *)
Lemma moduleA_scenario_binary64 :
  let richness := (if PrimFloat.ltb (1 / 10) 1 then 1 / 10 else 1)%float in
  let coherence := ((richness + 0x1p-1) / 2)%float in
  let combined := ((0x1.ccccccccccccdp-1 + coherence) / 2)%float in
  PrimFloat.ltb 0x1.3333333333333p-1 combined = false /\
  PrimFloat.ltb 0x1.999999999999ap-2 combined = true.
Proof. split; reflexivity. Qed.

(** ** Relevance *)

Lemma scale_factor_pos (s : TemporalScale) : 0 < scale_factor s.
Proof. destruct s; reflexivity. Qed.

(** The distance is clamped into [0, 1]. *)
Lemma calculate_temporal_distance_range (e : TemporalEvent) (reference_time : datetime) :
  0 <= calculate_temporal_distance e reference_time <= 1.
Proof.
  unfold calculate_temporal_distance. cbv zeta. split.
  - apply min1_nonneg.
    apply Qle_shift_div_l; [apply scale_factor_pos|].
    rewrite Qmult_0_l. apply Qabs_nonneg.
  - apply min1_le_1.
Qed.

(** An event of scale ShortTerm, 1800 seconds from the reference time, is at
    distance 1800 / 3600 = 0.5. *)
Example short_term_distance_half (e : TemporalEvent) :
  temporal_scale e = SHORT_TERM ->
  calculate_temporal_distance e (ev_timestamp e + 1800 * 1000000)%Z == 0.5.
Proof.
  intros Hs. unfold calculate_temporal_distance. cbv zeta. rewrite Hs.
  replace (ev_timestamp e - (ev_timestamp e + 1800 * 1000000))%Z
    with (- 1800000000)%Z by lia.
  reflexivity.
Qed.

Lemma relevance_score_mono (sig sig' mem mem' d d' : Q) :
  0 <= sig -> 0 <= mem -> 0 <= d' -> d' <= d -> sig <= sig' -> mem <= mem' ->
  relevance_score sig mem d <= relevance_score sig' mem' d'.
Proof.
  intros Hsig Hmem Hd' Hd Hs Hm. unfold relevance_score.
  assert (Hnum : sig * mem <= sig' * mem') by nra.
  assert (Hnum0 : 0 <= sig * mem) by nra.
  assert (Hden : 0 < 1.0 + d) by lra.
  assert (Hden' : 0 < 1.0 + d') by lra.
  apply Qle_shift_div_r; [exact Hden|].
  assert (Hq : 0 <= sig' * mem' / (1.0 + d')).
  { apply Qle_shift_div_l; [exact Hden'|]. nra. }
  assert (Hmul : sig' * mem' / (1.0 + d') * (1.0 + d') == sig' * mem').
  { field. lra. }
  nra.
Qed.

(** On a significance and a memory strength that are at least 0, the
    relevance predicate is monotone in its three arguments at once: an event
    that is relevant stays relevant when the distance shrinks (to any [d']
    with [0 <= d' <= d]) and the significance and the memory strength do not
    shrink. *)
Lemma is_relevant_monotone (sig sig' mem mem' d d' thr : Q) :
  0 <= sig -> 0 <= mem -> 0 <= d' -> d' <= d -> sig <= sig' -> mem <= mem' ->
  is_relevant sig mem d thr = true ->
  is_relevant sig' mem' d' thr = true.
Proof.
  intros Hsig Hmem Hd' Hd Hs Hm. unfold is_relevant.
  rewrite !Qgtb_true. intros Hrel.
  eapply Qlt_le_trans; [exact Hrel|].
  now apply relevance_score_mono.
Qed.

Lemma is_relevant_monotone_witness :
  is_relevant 0.8 1.0 0.5 default_relevance_threshold = true /\
  is_relevant 0.9 1.0 0.25 default_relevance_threshold = true.
Proof.
  split; [reflexivity|].
  apply (is_relevant_monotone 0.8 0.9 1.0 1.0 0.5 0.25 default_relevance_threshold);
    first [reflexivity | discriminate].
Defined.

(** The same on events: of two events with one memory strength, the one that
    is at least as significant and at most as distant is relevant whenever
    the other is. *)
Lemma is_temporally_relevant_monotone (e e' : TemporalEvent)
    (t t' : datetime) (thr : Q) :
  0 <= significance e -> 0 <= memory_strength e ->
  significance e <= significance e' ->
  memory_strength e <= memory_strength e' ->
  calculate_temporal_distance e' t' <= calculate_temporal_distance e t ->
  is_temporally_relevant e t thr = true ->
  is_temporally_relevant e' t' thr = true.
Proof.
  intros Hs Hm Hss Hmm Hd. unfold is_temporally_relevant. cbv zeta.
  apply is_relevant_monotone; auto.
  apply calculate_temporal_distance_range.
Qed.

Lemma quotient_sign (A d : Q) : A < 0 -> 0 <= d -> A / (1.0 + d) < 0.
Proof.
  intros HA Hd. apply Qlt_shift_div_r; lra.
Qed.

Lemma quotient_mono_numerator (A A' d : Q) :
  A <= A' -> 0 <= d -> A / (1.0 + d) <= A' / (1.0 + d).
Proof.
  intros HA Hd. apply Qle_shift_div_r; [lra|].
  assert (E : A' / (1.0 + d) * (1.0 + d) == A') by (field; lra). lra.
Qed.

Lemma quotient_antitone_distance (A d d' : Q) :
  0 <= A -> 0 <= d' -> d' <= d -> A / (1.0 + d) <= A / (1.0 + d').
Proof.
  intros HA Hd' Hd.
  apply Qle_shift_div_r; [lra|].
  assert (Hq : 0 <= A / (1.0 + d')) by (apply Qle_shift_div_l; lra).
  assert (E : A / (1.0 + d') * (1.0 + d') == A) by (field; lra).
  nra.
Qed.

(** C7, as the code has it.  The relevance predicate is monotone
    non-increasing in the temporal distance (over distances at least 0) when
    significance times memory strength is at least 0, or when the threshold is
    at least 0 as the default 0.5 is; it is monotone non-decreasing in the
    significance when the memory strength is at least 0, and monotone
    non-decreasing in the memory strength when the significance is at least
    0. *)
Theorem relevance_monotone_on_its_domain :
  (forall sig mem d d' thr,
      0 <= sig * mem \/ 0 <= thr ->
      0 <= d' -> d' <= d ->
      is_relevant sig mem d thr = true -> is_relevant sig mem d' thr = true) /\
  (forall sig sig' mem d thr,
      0 <= mem -> 0 <= d -> sig <= sig' ->
      is_relevant sig mem d thr = true -> is_relevant sig' mem d thr = true) /\
  (forall sig mem mem' d thr,
      0 <= sig -> 0 <= d -> mem <= mem' ->
      is_relevant sig mem d thr = true -> is_relevant sig mem' d thr = true).
Proof.
  unfold is_relevant, relevance_score. repeat split.
  - intros sig mem d d' thr Hdom Hd' Hd. rewrite !Qgtb_true. intros Hrel.
    destruct (Qlt_le_dec (sig * mem) 0) as [Hneg|Hpos].
    + destruct Hdom as [Hdom|Hthr]; [lra|].
      pose proof (quotient_sign (sig * mem) d Hneg) as Hs.
      assert (0 <= d) by lra. specialize (Hs H). lra.
    + eapply Qlt_le_trans; [exact Hrel|].
      now apply quotient_antitone_distance.
  - intros sig sig' mem d thr Hmem Hd Hs. rewrite !Qgtb_true. intros Hrel.
    eapply Qlt_le_trans; [exact Hrel|].
    apply quotient_mono_numerator; [nra|exact Hd].
  - intros sig mem mem' d thr Hsig Hd Hm. rewrite !Qgtb_true. intros Hrel.
    eapply Qlt_le_trans; [exact Hrel|].
    apply quotient_mono_numerator; [nra|exact Hd].
Qed.

Lemma relevance_monotone_on_its_domain_witness :
  is_relevant (-1) 1.0 0.25 default_relevance_threshold = false /\
  is_relevant 0.9 1.0 0.25 default_relevance_threshold = true.
Proof.
  split; [reflexivity|].
  destruct relevance_monotone_on_its_domain as (Hdist & _ & _).
  apply (Hdist 0.9 1.0 0.5 0.25 default_relevance_threshold);
    first [right; discriminate | discriminate | reflexivity].
Defined.

(** An event of significance -1, of scale Immediate, recorded at time 0. *)
Definition negative_event : option TemporalEvent :=
  let x :=
    {| Temporal.exp_type := Some "interaction"%string;
       Temporal.exp_description := None;
       Temporal.exp_emotional_valence := None;
       Temporal.exp_causal_relations := None;
       Temporal.exp_narrative_context := None;
       Temporal.exp_temporal_scale := Some IMMEDIATE;
       Temporal.exp_significance := None |} in
  let r :=
    Temporal.process_temporal_experience (Temporal.init 0%Z)
      (mkClock 1730000000123%Z 0%Z) 0%Z x (-1) in
  dict_get (Temporal.temporal_events (snd r)) (fst r).

(** C7, as the claim has it, fails.  The store records an event of
    significance -1 as it is given; against the threshold -0.75 the event is
    relevant one second after its timestamp (distance 1, relevance -0.5) and
    not relevant at its timestamp (distance 0, relevance -1): the predicate
    holds at a distance and fails at a smaller one. *)
Lemma relevance_not_monotone_for_negative_significance :
  match negative_event with
  | Some e =>
      significance e == -1 /\ memory_strength e == 1 /\
      calculate_temporal_distance e 1000000%Z == 1 /\
      calculate_temporal_distance e 0%Z == 0 /\
      is_temporally_relevant e 1000000%Z (-0.75) = true /\
      is_temporally_relevant e 0%Z (-0.75) = false
  | None => False
  end /\
  is_relevant (-1) 1.0 1 (-0.75) = true /\
  is_relevant (-1) 1.0 0 (-0.75) = false.
Proof. vm_compute. repeat split; congruence. Qed.

(** ** Admission *)



(** ** The focus ordering: its bound *)

Lemma cap_is_firstn {A : Type} (n : nat) (l : list A) :
  (if (n <? List.length l)%nat then firstn n l else l) = firstn n l.
Proof.
  destruct (n <? List.length l)%nat eqn:E; [reflexivity|].
  apply Nat.ltb_ge in E. symmetry. now apply firstn_all2.
Qed.

Lemma remove_first_not_mem (x : string) (l : list string) :
  mem_id x l = false -> remove_first x l = l.
Proof.
  unfold mem_id. induction l as [|y l IH]; simpl; [reflexivity|].
  destruct (String.eqb x y); simpl; [discriminate|].
  intros H. now rewrite IH.
Qed.

Lemma remove_if_member (x : string) (l : list string) :
  (if mem_id x l then remove_first x l else l) = remove_first x l.
Proof.
  destruct (mem_id x l) eqn:E; [reflexivity|].
  symmetry. now apply remove_first_not_mem.
Qed.

(** The focus ordering after [_update_attention_focus], for a present id. *)
Lemma update_attention_focus_focus (w : Workspace.t) (cid : string)
    (content : WorkspaceContent) :
  dict_get (workspace_contents w) cid = Some content ->
  attention_focus (_update_attention_focus w cid) =
  firstn 50
    (match attention_level content with
     | CONSCIOUS => cid :: remove_first cid (attention_focus w)
     | _ => insert_by_priority (workspace_contents w) (priority content) cid
              (remove_first cid (attention_focus w))
     end).
Proof.
  intros Hget. unfold _update_attention_focus. rewrite Hget.
  cbn [attention_focus]. rewrite cap_is_firstn, remove_if_member. reflexivity.
Qed.

Lemma add_content_focus_bound w c sm ct data p :
  (List.length (attention_focus (snd (add_content w c sm ct data p))) <= 50)%nat.
Proof.
  unfold add_content. cbv zeta. unfold snd.
  erewrite update_attention_focus_focus
    by (cbn [workspace_contents]; apply dict_get_set_same).
  apply firstn_le_length.
Qed.

(** One admission: the arguments of a call of [add_content] and the clock
    readings it makes. *)
Record Admission : Type := mkAdmission {
  adm_clock : Clock;
  adm_source_module : string;
  adm_content_type : string;
  adm_data : Payload;
  adm_priority : Q
}.

Definition run_admission (w : Workspace.t) (a : Admission) : Workspace.t :=
  snd (add_content w (adm_clock a) (adm_source_module a) (adm_content_type a)
                   (adm_data a) (adm_priority a)).

Definition run_admissions (w : Workspace.t) (l : list Admission) : Workspace.t :=
  fold_left run_admission l w.

Lemma run_admissions_focus_bound (l : list Admission) (w : Workspace.t) :
  (List.length (attention_focus w) <= 50)%nat ->
  (List.length (attention_focus (run_admissions w l)) <= 50)%nat.
Proof.
  revert w. induction l as [|a l IH]; intros w Hw; simpl; [exact Hw|].
  apply IH. apply add_content_focus_bound.
Qed.

(** C10.  After any sequence of admissions from the empty workspace the focus
    ordering has at most 50 entries. *)
Theorem focus_ordering_at_most_50 (l : list Admission) :
  (List.length (attention_focus (run_admissions Workspace.init l)) <= 50)%nat.
Proof.
  apply run_admissions_focus_bound. simpl. lia.
Qed.

(** ** The focus ordering: where an admission puts its id *)






(** ** Identifiers *)

Lemma to_int_not_nil (n : Z) :
  Z.to_int n <> Decimal.Pos Decimal.Nil /\ Z.to_int n <> Decimal.Neg Decimal.Nil.
Proof.
  split; intros H; pose proof (DecimalZ.of_to n) as Hn; rewrite H in Hn;
    simpl in Hn; subst n; discriminate.
Qed.

Lemma string_of_Z_inj (n m : Z) : string_of_Z n = string_of_Z m -> n = m.
Proof.
  unfold string_of_Z. intros H.
  destruct (to_int_not_nil n) as [Hn1 Hn2].
  destruct (to_int_not_nil m) as [Hm1 Hm2].
  pose proof (NilZero.isi _ Hn1 Hn2) as Hni.
  pose proof (NilZero.isi _ Hm1 Hm2) as Hmi.
  rewrite H in Hni. rewrite Hni in Hmi. injection Hmi as Hmi.
  now apply DecimalZ.to_int_inj.
Qed.

(** Two ids are one exactly when the clock read the same millisecond. *)
Lemma make_content_id_inj (c1 c2 : Clock) :
  make_content_id c1 = make_content_id c2 <-> time_ms c1 = time_ms c2.
Proof.
  unfold make_content_id. split.
  - simpl. intros H. injection H as H. now apply string_of_Z_inj.
  - now intros ->.
Qed.

Lemma make_event_id_inj (c1 c2 : Clock) :
  make_event_id c1 = make_event_id c2 <-> time_ms c1 = time_ms c2.
Proof.
  unfold make_event_id. split.
  - simpl. intros H. injection H as H. now apply string_of_Z_inj.
  - now intros ->.
Qed.

(** ** The focus ordering: the rule and where the claim departs from it *)


(** Seven keys: with a connection strength of 0.8 the coherence is 0.75. *)
Definition seven_keys : Payload :=
  map (fun k => (k, PyInt 1))
      ["a"; "b"; "c"; "d"; "e"; "f"; "g"]%string.



(** ** The event store: operations *)

Module TemporalOps.
Import Temporal TemporalState.

(** The calls that reach the event store, with their clock readings. *)
Inductive Op : Type :=
  | OpRecord (c : Clock) (now_after : datetime) (x : Experience) (significance : Q)
  | OpInitialize (ic : InitClock)
  | OpQuery (t_now : datetime).

Definition step (s : Temporal.t) (op : Op) : Temporal.t :=
  match op with
  | OpRecord c now_after x sig =>
      snd (process_temporal_experience s c now_after x sig)
  | OpInitialize ic => snd (initialize s ic)
  | OpQuery t_now => snd (get_temporal_consciousness_state s t_now)
  end.

Inductive reachable : Temporal.t -> Prop :=
  | reachable_init (t0 : datetime) : reachable (init t0)
  | reachable_step (s : Temporal.t) (op : Op) :
      reachable s -> reachable (step s op).

(** Every stored event has the memory strength of its creation. *)
Definition full_strength (s : Temporal.t) : Prop :=
  forall k e, dict_get (temporal_events s) k = Some e -> memory_strength e = 1.0.

(** No key is lost from [s] to [s']. *)
Definition keeps_keys (s s' : Temporal.t) : Prop :=
  forall k, dict_mem (temporal_events s) k = true ->
            dict_mem (temporal_events s') k = true.

End TemporalOps.

(** ** The event store: memory strength *)

Import Temporal TemporalState TemporalOps.

Lemma process_temporal_experience_id s c n x sig :
  fst (process_temporal_experience s c n x sig) = make_event_id c.
Proof. reflexivity. Qed.

Lemma process_temporal_experience_created s c n x sig :
  exists e,
    dict_get (temporal_events (snd (process_temporal_experience s c n x sig)))
             (make_event_id c) = Some e /\
    memory_strength e = 1.0 /\ significance e = sig /\ ev_timestamp e = now c.
Proof.
  unfold process_temporal_experience. cbv zeta. cbn [snd temporal_events].
  eexists. split; [apply dict_get_set_same|]. repeat split.
Qed.

Lemma process_temporal_experience_full_strength s c n x sig :
  full_strength s ->
  full_strength (snd (process_temporal_experience s c n x sig)).
Proof.
  intros Hs k e. unfold process_temporal_experience. cbv zeta.
  cbn [snd temporal_events].
  destruct (string_dec k (make_event_id c)) as [->|Hne].
  - rewrite dict_get_set_same. intros [= <-]. reflexivity.
  - rewrite dict_get_set_other by exact Hne. apply Hs.
Qed.

Lemma process_temporal_experience_keeps_keys s c n x sig :
  keeps_keys s (snd (process_temporal_experience s c n x sig)).
Proof.
  intros k. unfold process_temporal_experience. cbv zeta.
  cbn [snd temporal_events]. apply dict_set_keeps_keys.
Qed.

Lemma keeps_keys_trans s1 s2 s3 :
  keeps_keys s1 s2 -> keeps_keys s2 s3 -> keeps_keys s1 s3.
Proof. unfold keeps_keys. auto. Qed.

(** The loop of [_create_foundational_events], over any list of dicts and
    readings. *)
Lemma record_loop_invariants (l : list (Experience * (Clock * datetime))) (s : Temporal.t) :
  let s' :=
    fold_left
      (fun acc (xr : Experience * (Clock * datetime)) =>
         let '(x, (c, now_after)) := xr in
         snd (process_temporal_experience acc c now_after x (significance_of x)))
      l s in
  (full_strength s -> full_strength s') /\ keeps_keys s s'.
Proof.
  revert s. induction l as [|[x [c n]] l IH]; intros s; simpl.
  - split; [auto|]. intros k Hk. exact Hk.
  - destruct (IH (snd (process_temporal_experience s c n x (significance_of x))))
      as [Hf Hk].
    split.
    + intros Hs. apply Hf. now apply process_temporal_experience_full_strength.
    + eapply keeps_keys_trans; [apply process_temporal_experience_keeps_keys|exact Hk].
Qed.

Lemma step_invariants (s : Temporal.t) (op : Op) :
  (full_strength s -> full_strength (step s op)) /\ keeps_keys s (step s op).
Proof.
  destruct op as [c n x sig|ic|t_now]; simpl.
  - split; [apply process_temporal_experience_full_strength
           |apply process_temporal_experience_keeps_keys].
  - unfold initialize, _create_foundational_events. cbv zeta.
    cbn [snd temporal_events].
    destruct (record_loop_invariants
                (combine foundational_events (ic_readings ic))
                (_initialize_present_moment s (ic_present ic))) as [Hf Hk].
    split.
    + intros Hs k e Hget. eapply Hf; [|exact Hget]. exact Hs.
    + intros k Hmem. apply Hk. exact Hmem.
  - unfold get_temporal_consciousness_state.
    destruct (negb (Temporal.initialized s)); cbn [snd].
    + split; [auto|]. intros k Hk. exact Hk.
    + unfold _update_temporal_metrics.
      destruct (temporal_events s) eqn:E; cbn [temporal_events].
      * split; [auto|]. intros k Hk. exact Hk.
      * split.
        -- intros Hs k e. unfold full_strength in Hs. rewrite E in Hs. apply Hs.
        -- intros k. unfold dict_mem. rewrite E. auto.
Qed.

Lemma reachable_full_strength (s : Temporal.t) : reachable s -> full_strength s.
Proof.
  induction 1 as [t0|s op Hr IH].
  - intros k e. simpl. discriminate.
  - now apply step_invariants.
Qed.

Lemma Qgtb_compat (a b thr : Q) : a == b -> Qgtb a thr = Qgtb b thr.
Proof. intros H. unfold Qgtb. now rewrite H. Qed.

(** C9.  An event's memory strength is 1.0 when it is created, and no
    recording, initialization or query changes it: in every reachable store a
    stored event has memory strength 1.0, after any further operation its key
    is still there with memory strength 1.0 (so the strength never grows), and
    whether the event is relevant is decided by its significance and its
    temporal distance alone. *)
Theorem memory_strength_stays_one (s : Temporal.t) (op : Op) (k : string)
    (e : TemporalEvent) :
  reachable s ->
  dict_get (temporal_events s) k = Some e ->
  memory_strength e = 1.0 /\
  (exists e',
      dict_get (temporal_events (step s op)) k = Some e' /\
      memory_strength e' = 1.0 /\
      memory_strength e' <= memory_strength e) /\
  (forall c n x sig,
      exists e0,
        dict_get (temporal_events (snd (process_temporal_experience s c n x sig)))
                 (fst (process_temporal_experience s c n x sig)) = Some e0 /\
        memory_strength e0 = 1.0) /\
  (forall t thr,
      is_temporally_relevant e t thr =
      Qgtb (significance e / (1.0 + calculate_temporal_distance e t)) thr).
Proof.
  intros Hr Hget.
  pose proof (reachable_full_strength s Hr) as Hs.
  pose proof (Hs k e Hget) as He.
  destruct (step_invariants s op) as [Hf Hk].
  split; [exact He|]. split; [|split].
  - specialize (Hk k). unfold dict_mem in Hk. rewrite Hget in Hk.
    specialize (Hk eq_refl).
    destruct (dict_get (temporal_events (step s op)) k) as [e'|] eqn:Hget';
      [|discriminate].
    exists e'. split; [reflexivity|].
    pose proof (Hf Hs k e' Hget') as He'.
    split; [exact He'|]. rewrite He, He'. apply Qle_refl.
  - intros c n x sig. rewrite process_temporal_experience_id.
    destruct (process_temporal_experience_created s c n x sig) as (e0 & H0 & H1 & _).
    exists e0. split; assumption.
  - intros t thr. unfold is_temporally_relevant, is_relevant, relevance_score.
    cbv zeta. apply Qgtb_compat. rewrite He.
    assert (0 <= calculate_temporal_distance e t)
      by apply calculate_temporal_distance_range.
    field. lra.
Qed.

(** Clock readings of an initialization whose three recordings fall into
    three different milliseconds. *)
Definition spread_init_clock (ms : Z) : InitClock :=
  {| ic_present := (ms * 1000)%Z;
     ic_first := (mkClock ms (ms * 1000)%Z, (ms * 1000 + 10)%Z);
     ic_second :=
       (mkClock (ms + 1)%Z ((ms + 1) * 1000)%Z, ((ms + 1) * 1000 + 10)%Z);
     ic_third :=
       (mkClock (ms + 2)%Z ((ms + 2) * 1000)%Z, ((ms + 2) * 1000 + 10)%Z) |}.

(** Clock readings of an initialization whose three recordings fall into one
    millisecond, a few microseconds apart. *)
Definition burst_init_clock (ms : Z) : InitClock :=
  {| ic_present := (ms * 1000)%Z;
     ic_first := (mkClock ms (ms * 1000 + 20)%Z, (ms * 1000 + 30)%Z);
     ic_second := (mkClock ms (ms * 1000 + 40)%Z, (ms * 1000 + 50)%Z);
     ic_third := (mkClock ms (ms * 1000 + 60)%Z, (ms * 1000 + 70)%Z) |}.

Lemma memory_strength_stays_one_witness :
  let s := snd (Temporal.initialize (Temporal.init 0%Z) (spread_init_clock 1730000000123%Z)) in
  exists e,
    dict_get (temporal_events s) "temporal_event_1730000000125" = Some e /\
    memory_strength e = 1.0.
Proof.
  cbv zeta.
  destruct (dict_get
              (temporal_events
                 (snd (Temporal.initialize (Temporal.init 0%Z)
                         (spread_init_clock 1730000000123%Z))))
              "temporal_event_1730000000125") as [e|] eqn:Hget.
  - exists e. split; [reflexivity|].
    apply (memory_strength_stays_one
             (step (Temporal.init 0%Z) (OpInitialize (spread_init_clock 1730000000123%Z)))
             (OpQuery 0%Z) "temporal_event_1730000000125" e).
    + apply reachable_step, reachable_init.
    + exact Hget.
  - vm_compute in Hget. discriminate.
Defined.

(** ** Identifiers: collisions *)

(** Two recordings in one millisecond get one id, and the second event
    replaces the first: the store does not grow. *)
Lemma same_millisecond_event_overwritten s c1 c2 n1 n2 x1 x2 sig1 sig2 :
  time_ms c1 = time_ms c2 ->
  let r1 := process_temporal_experience s c1 n1 x1 sig1 in
  let r2 := process_temporal_experience (snd r1) c2 n2 x2 sig2 in
  fst r2 = fst r1 /\
  List.length (temporal_events (snd r2)) = List.length (temporal_events (snd r1)).
Proof.
  intros Hms r1 r2. subst r1 r2.
  rewrite !process_temporal_experience_id.
  assert (Hid : make_event_id c2 = make_event_id c1)
    by (apply make_event_id_inj; congruence).
  split; [exact Hid|].
  destruct (process_temporal_experience_created s c1 n1 x1 sig1) as (e & Hget & _).
  set (s1 := snd (process_temporal_experience s c1 n1 x1 sig1)) in *.
  unfold process_temporal_experience at 1. cbv zeta. cbn [snd temporal_events].
  apply dict_set_length_present. unfold dict_mem. now rewrite Hid, Hget.
Qed.

(** The same for two admissions. *)
Lemma same_millisecond_content_overwritten w c1 c2 sm1 ct1 data1 p1 sm2 ct2 data2 p2 :
  time_ms c1 = time_ms c2 ->
  let r1 := add_content w c1 sm1 ct1 data1 p1 in
  let r2 := add_content (snd r1) c2 sm2 ct2 data2 p2 in
  fst r2 = fst r1 /\
  List.length (workspace_contents (snd r2)) = List.length (workspace_contents (snd r1)) /\
  dict_get (workspace_contents (snd r2)) (fst r1) =
    Some (admitted_content (snd r1) c2 sm2 ct2 data2 p2).
Proof.
  intros Hms r1 r2. subst r1 r2. rewrite !add_content_id.
  assert (Hid : make_content_id c2 = make_content_id c1)
    by (apply make_content_id_inj; congruence).
  split; [exact Hid|].
  rewrite (add_content_contents (snd (add_content w c1 sm1 ct1 data1 p1))).
  split.
  - apply dict_set_length_present. unfold dict_mem.
    rewrite Hid, add_content_contents, dict_get_set_same. reflexivity.
  - rewrite Hid. apply dict_get_set_same.
Qed.

(** C4, at the input where the code misses it.  [initialize] records the
    three foundational events in one millisecond: all three get the id of that
    millisecond, each replaces the one before, and the store ends with one
    event where three were processed.  Two admissions in one millisecond do
    the same to the workspace: one item is left, the second. *)
Theorem ids_collide_within_a_millisecond :
  let s := snd (Temporal.initialize (Temporal.init 0%Z) (burst_init_clock 1730000000123%Z)) in
  let c1 := mkClock 1730000000123%Z 1730000000123100%Z in
  let c2 := mkClock 1730000000123%Z 1730000000123900%Z in
  let r1 := add_content Workspace.init c1 "moduleA" "event" [("x"%string, PyInt 1)] 0.9 in
  let r2 := add_content (snd r1) c2 "moduleB" "signal" [] 0.2 in
  events_processed (temporal_metrics s) = 3%Z /\
  map event_type (dict_values (temporal_events s)) = ["identity_formation_start"%string] /\
  fst r2 = fst r1 /\
  map source_module (dict_values (workspace_contents (snd r2))) = ["moduleB"%string] /\
  attention_focus (snd r2) = [fst r1].
Proof. vm_compute. repeat split. Qed.

(** ** Metrics: the coherence level *)

Import WorkspaceState.

(** When some item is Conscious, the snapshot of an initialized workspace
    reports the mean of the coherence scores of the Conscious items. *)
Lemma snapshot_coherence_is_mean (w : Workspace.t) (t_now : datetime) :
  Workspace.initialized w = true ->
  get_conscious_contents w <> [] ->
  exists snap,
    fst (get_workspace_state w t_now) = WorkspaceState.State snap /\
    coherence_level (snap_consciousness_metrics snap) =
      WorkspaceState.Qsum (map coherence_score (get_conscious_contents w))
      / Qlen (get_conscious_contents w).
Proof.
  intros Hinit Hc. unfold get_workspace_state. rewrite Hinit. cbn [negb fst].
  eexists. split; [reflexivity|]. cbn [snap_consciousness_metrics].
  unfold _update_consciousness_metrics, get_conscious_contents in *.
  destruct (workspace_contents w) as [|kv d] eqn:E; [now elim Hc|].
  cbn [consciousness_metrics coherence_level].
  destruct (filter (fun c => is_conscious (attention_level c)) (dict_values (kv :: d)));
    [now elim Hc|reflexivity].
Qed.

(** In a workspace that holds no item the snapshot reports the level it was
    created with, 0. *)
Lemma snapshot_coherence_fresh (t_now : datetime) :
  let w := snd (Workspace.initialize Workspace.init) in
  exists snap,
    fst (get_workspace_state w t_now) = WorkspaceState.State snap /\
    coherence_level (snap_consciousness_metrics snap) == 0.
Proof. cbv zeta. eexists. split; reflexivity. Qed.

(** C8, at the input where the code misses it.  A Conscious item of coherence
    0.75 is admitted and a snapshot taken: the level is 0.75, the mean.  In the
    same millisecond a Background item is admitted: it has the id of the first
    and replaces it, so no item is Conscious any more.  The next snapshot still
    reports 0.75, where the mean over no item is to be 0: the recomputation
    leaves the level as it was when the list of Conscious items is empty, while
    the integration depth beside it goes back to 0. *)
Theorem coherence_level_stale_without_conscious :
  let w0 := snd (Workspace.initialize Workspace.init) in
  let c1 := mkClock 1730000000123%Z 1730000000123100%Z in
  let c2 := mkClock 1730000000123%Z 1730000000123900%Z in
  let w1 := snd (add_content w0 c1 "temporal_consciousness" "event" seven_keys 0.9) in
  let q1 := get_workspace_state w1 1730000000123500%Z in
  let w2 := snd (add_content (snd q1) c2 "moduleB" "signal" [] 0.1) in
  let q2 := get_workspace_state w2 1730000000124000%Z in
  coherence_level (consciousness_metrics (snd q1)) == 0.75 /\
  get_conscious_contents w2 = [] /\
  List.length (workspace_contents w2) = 1%nat /\
  (exists snap,
      fst q2 = WorkspaceState.State snap /\
      coherence_level (snap_consciousness_metrics snap) == 0.75 /\
      ~ coherence_level (snap_consciousness_metrics snap) == 0 /\
      integration_depth (snap_consciousness_metrics snap) == 0).
Proof.
  cbv zeta. split; [vm_compute; reflexivity|].
  split; [vm_compute; reflexivity|].
  split; [vm_compute; reflexivity|].
  eexists. split; [reflexivity|].
  repeat split; vm_compute; congruence.
Qed.

(** ** The core: ingestion outside the active state *)

Import Core.

(** C2.  While the core is paused or stopped by an emergency stop,
    [process_experience] returns the "System not active" error and changes
    nothing: both stores, and with them the number of workspace items and the
    recent events, are what they were. *)
Theorem process_experience_not_active (st : Core.t) (c : Clock)
    (now_after : datetime) (x : Experience) :
  system_status st = paused \/ system_status st = emergency_stop_status ->
  let r := process_experience st c now_after x in
  fst r = NotActive /\
  snd r = st /\
  global_workspace (snd r) = global_workspace st /\
  temporal_consciousness (snd r) = temporal_consciousness st /\
  total_contents (snd r) = total_contents st /\
  (forall n, Core.recent_events (snd r) n = Core.recent_events st n).
Proof.
  intros Hstatus r. subst r. unfold process_experience.
  assert (Hact : is_active (system_status st) = false)
    by (destruct Hstatus as [-> | ->]; reflexivity).
  rewrite Hact, orb_true_r. cbn [fst snd]. repeat split.
Qed.

(** Pausing and stopping lead to such a state, whatever the state before. *)
Lemma pause_then_status (st : Core.t) :
  system_status (snd (pause_system st)) = paused.
Proof. reflexivity. Qed.

Lemma emergency_stop_then_status (st : Core.t) :
  system_status (snd (emergency_stop st)) = emergency_stop_status.
Proof. reflexivity. Qed.

(** An experience: an interaction of some significance. *)
Definition sample_experience : Experience :=
  {| exp_type := Some "interaction"%string;
     exp_description := Some "A conversation"%string;
     exp_emotional_valence := Some 0.3;
     exp_causal_relations := None;
     exp_narrative_context := None;
     exp_temporal_scale := None;
     exp_significance := Some 0.7 |}.

Lemma process_experience_not_active_witness :
  let st0 := snd (Core.initialize (Core.init 0%Z)
                    (spread_init_clock 1730000000123%Z) false) in
  let st := snd (pause_system st0) in
  let r := process_experience st (mkClock 1730000000200%Z 1730000000200000%Z)
             1730000000200050%Z sample_experience in
  fst r = NotActive /\ total_contents (snd r) = total_contents st.
Proof.
  cbv zeta.
  destruct (process_experience_not_active
              (snd (pause_system
                      (snd (Core.initialize (Core.init 0%Z)
                              (spread_init_clock 1730000000123%Z) false))))
              (mkClock 1730000000200%Z 1730000000200000%Z)
              1730000000200050%Z sample_experience
              (or_introl (pause_then_status _)))
    as (Hres & _ & _ & _ & Htotal & _).
  split; assumption.
Defined.

(** In the active state the call is not a no-op: the event store records the
    experience before the workspace step fails. *)
Lemma process_experience_active_records (st : Core.t) (c : Clock)
    (now_after : datetime) (x : Experience) :
  Core.initialized st = true -> system_status st = active ->
  dict_mem (temporal_events (temporal_consciousness
                               (snd (process_experience st c now_after x))))
           (make_event_id c) = true /\
  global_workspace (snd (process_experience st c now_after x)) = global_workspace st.
Proof.
  intros Hinit Hact. unfold process_experience. rewrite Hinit, Hact.
  cbn [negb is_active orb].
  destruct (process_temporal_experience_created (temporal_consciousness st) c
              now_after x default_significance) as (e & Hget & _).
  destruct (process_temporal_experience (temporal_consciousness st) c now_after x
              default_significance) as [eid tc].
  cbn [snd] in *. unfold _log_activity.
  cbn [temporal_consciousness global_workspace].
  split; [|reflexivity].
  unfold dict_mem. now rewrite Hget.
Qed.

(** ** The core: emergency stop and reinitialization *)

Lemma insert_desc_length (e : TemporalEvent) (l : list TemporalEvent) :
  List.length (insert_desc e l) = S (List.length l).
Proof.
  induction l as [|h l IH]; simpl; [reflexivity|].
  destruct (ev_timestamp h <? ev_timestamp e)%Z; simpl; auto.
Qed.

Lemma sorted_desc_length (l : list TemporalEvent) :
  List.length (sorted_desc l) = List.length l.
Proof.
  unfold sorted_desc.
  assert (H : forall acc,
             List.length (fold_left (fun acc e => insert_desc e acc) l acc)
             = (List.length l + List.length acc)%nat).
  { induction l as [|e l IH]; intros acc; simpl; [reflexivity|].
    rewrite IH, insert_desc_length. lia. }
  rewrite H. simpl. lia.
Qed.

(** The recent-events query returns [n] events, or all when there are fewer. *)
Lemma recent_events_length (s : Temporal.t) (n : nat) :
  List.length (TemporalState.recent_events s n) =
  Nat.min n (List.length (temporal_events s)).
Proof.
  unfold TemporalState.recent_events.
  rewrite length_firstn, sorted_desc_length. unfold dict_values.
  now rewrite length_map.
Qed.

(** An initialization leaves at least one event in the store, and loses
    none. *)
Lemma temporal_initialize_events (s : Temporal.t) (ic : InitClock) :
  temporal_events (snd (Temporal.initialize s ic)) <> [] /\
  keeps_keys s (snd (Temporal.initialize s ic)).
Proof.
  split.
  - unfold Temporal.initialize, _create_foundational_events. cbv zeta.
    cbn [snd temporal_events]. unfold foundational_events, ic_readings.
    cbn [combine fold_left].
    destruct (ic_first ic) as [c1 n1], (ic_second ic) as [c2 n2],
             (ic_third ic) as [c3 n3].
    unfold process_temporal_experience at 1. cbv zeta.
    cbn [snd temporal_events]. apply dict_set_nonempty.
  - apply (step_invariants s (OpInitialize ic)).
Qed.

Lemma core_initialize_stores (st : Core.t) (ic : InitClock) (thread_alive : bool) :
  temporal_consciousness (snd (Core.initialize st ic thread_alive)) =
    snd (Temporal.initialize (temporal_consciousness st) ic) /\
  global_workspace (snd (Core.initialize st ic thread_alive)) =
    snd (Workspace.initialize (global_workspace st)) /\
  system_status (snd (Core.initialize st ic thread_alive)) = active /\
  fst (Core.initialize st ic thread_alive) = true.
Proof.
  unfold Core.initialize.
  unfold Temporal.initialize at 1, Workspace.initialize at 1. cbv zeta.
  cbn [filter List.length Nat.eqb]. unfold _start_monitoring.
  destruct thread_alive; repeat split.
Qed.

(** What an initialization records: the counter of processed events grows by
    three, the ongoing experiences are the three new ids, the third
    foundational event is stored under its id, and so are the second and the
    first unless a later one was recorded in the same millisecond. *)
Lemma temporal_initialize_records (s : Temporal.t) (ic : InitClock) :
  let s' := snd (Temporal.initialize s ic) in
  let c1 := fst (ic_first ic) in
  let c2 := fst (ic_second ic) in
  let c3 := fst (ic_third ic) in
  events_processed (temporal_metrics s') =
    (events_processed (temporal_metrics s) + 3)%Z /\
  ongoing_experiences (present_moment_awareness s') =
    [make_event_id c1; make_event_id c2; make_event_id c3] /\
  (exists e3,
      dict_get (temporal_events s') (make_event_id c3) = Some e3 /\
      event_type e3 = "identity_formation_start"%string /\
      significance e3 = 0.8 /\ temporal_scale e3 = LONG_TERM /\
      ev_timestamp e3 = now c3) /\
  (time_ms c2 <> time_ms c3 ->
   exists e2,
      dict_get (temporal_events s') (make_event_id c2) = Some e2 /\
      event_type e2 = "first_awareness"%string /\
      significance e2 = 0.9 /\ temporal_scale e2 = LONG_TERM /\
      ev_timestamp e2 = now c2) /\
  (time_ms c1 <> time_ms c2 -> time_ms c1 <> time_ms c3 ->
   exists e1,
      dict_get (temporal_events s') (make_event_id c1) = Some e1 /\
      event_type e1 = "initialization"%string /\
      significance e1 = 1.0 /\ temporal_scale e1 = EXISTENTIAL /\
      ev_timestamp e1 = now c1).
Proof.
  cbv zeta.
  unfold Temporal.initialize, _create_foundational_events. cbv zeta.
  unfold foundational_events, ic_readings. cbn [combine fold_left].
  destruct (ic_first ic) as [c1 n1], (ic_second ic) as [c2 n2],
           (ic_third ic) as [c3 n3].
  cbn [fst snd]. unfold process_temporal_experience. cbv zeta.
  cbn [snd temporal_events temporal_metrics events_processed
       present_moment_awareness ongoing_experiences].
  split; [|split; [|split; [|split]]].
  - unfold _initialize_present_moment. cbn [temporal_metrics]. lia.
  - reflexivity.
  - eexists. split; [apply dict_get_set_same|]. repeat split.
  - intros H23. eexists. split.
    + rewrite dict_get_set_other
        by (intros Heq; apply make_event_id_inj in Heq; congruence).
      apply dict_get_set_same.
    + repeat split.
  - intros H12 H13. eexists. split.
    + rewrite !dict_get_set_other
        by (intros Heq; apply make_event_id_inj in Heq; congruence).
      apply dict_get_set_same.
    + repeat split.
Qed.

(** C1, as the code has it.  After an emergency stop, resuming runs
    [initialize] again, and the core is active.  Neither step empties a store:
    the workspace items are the ones that were there, so their number is
    unchanged, and the event store keeps every event id it had and has the
    foundational events recorded again (three more events are processed, the
    ongoing experiences are their three ids, and each is stored under its id
    unless a later one of the three fell into the same millisecond), so the
    recent-events query returns at least one event. *)
Theorem emergency_stop_then_resume_keeps_stores (st : Core.t) (ic : InitClock)
    (thread_alive : bool) :
  let st' := snd (resume_system (snd (emergency_stop st)) ic thread_alive) in
  let tc := temporal_consciousness st in
  let tc' := temporal_consciousness st' in
  let c1 := fst (ic_first ic) in
  let c2 := fst (ic_second ic) in
  let c3 := fst (ic_third ic) in
  system_status st' = active /\
  workspace_contents (global_workspace st') =
    workspace_contents (global_workspace st) /\
  total_contents st' = total_contents st /\
  (forall n, Core.recent_events st' (S n) <> []) /\
  (forall k, dict_mem (temporal_events tc) k = true ->
             dict_mem (temporal_events tc') k = true) /\
  events_processed (temporal_metrics tc') =
    (events_processed (temporal_metrics tc) + 3)%Z /\
  ongoing_experiences (present_moment_awareness tc') =
    [make_event_id c1; make_event_id c2; make_event_id c3] /\
  (exists e3,
      dict_get (temporal_events tc') (make_event_id c3) = Some e3 /\
      event_type e3 = "identity_formation_start"%string /\
      significance e3 = 0.8 /\ temporal_scale e3 = LONG_TERM /\
      ev_timestamp e3 = now c3) /\
  (time_ms c2 <> time_ms c3 ->
   exists e2,
      dict_get (temporal_events tc') (make_event_id c2) = Some e2 /\
      event_type e2 = "first_awareness"%string /\
      significance e2 = 0.9 /\ temporal_scale e2 = LONG_TERM /\
      ev_timestamp e2 = now c2) /\
  (time_ms c1 <> time_ms c2 -> time_ms c1 <> time_ms c3 ->
   exists e1,
      dict_get (temporal_events tc') (make_event_id c1) = Some e1 /\
      event_type e1 = "initialization"%string /\
      significance e1 = 1.0 /\ temporal_scale e1 = EXISTENTIAL /\
      ev_timestamp e1 = now c1).
Proof.
  intros st' tc tc' c1 c2 c3. subst st' tc tc' c1 c2 c3. unfold resume_system.
  rewrite emergency_stop_then_status. cbn [is_emergency_stop].
  destruct (core_initialize_stores (snd (emergency_stop st)) ic thread_alive)
    as (Ht & Hw & Hs & _).
  assert (Hstop_t : temporal_consciousness (snd (emergency_stop st)) =
                    temporal_consciousness st) by reflexivity.
  assert (Hstop_w : global_workspace (snd (emergency_stop st)) =
                    global_workspace st) by reflexivity.
  rewrite Hstop_t in Ht. rewrite Hstop_w in Hw.
  destruct (temporal_initialize_events (temporal_consciousness st) ic)
    as [Hne Hkeys].
  split; [exact Hs|]. split; [|split; [|split; [|split]]].
  - rewrite Hw. reflexivity.
  - unfold total_contents. rewrite Hw. reflexivity.
  - intros n Hnil. unfold Core.recent_events in Hnil. rewrite Ht in Hnil.
    apply (f_equal (@List.length _)) in Hnil.
    rewrite recent_events_length in Hnil.
    destruct (temporal_events (snd (Temporal.initialize (temporal_consciousness st) ic)));
      [now elim Hne|simpl in Hnil; discriminate].
  - intros k Hk. rewrite Ht. now apply Hkeys.
  - rewrite Ht. apply temporal_initialize_records.
Qed.

Lemma emergency_stop_then_resume_keeps_stores_witness :
  let st0 := snd (Core.initialize (Core.init 0%Z)
                    (spread_init_clock 1730000000123%Z) false) in
  let st' := snd (resume_system (snd (emergency_stop st0))
                    (spread_init_clock 1730000009000%Z) true) in
  exists e1,
    dict_get (temporal_events (temporal_consciousness st'))
             "temporal_event_1730000009000" = Some e1 /\
    event_type e1 = "initialization"%string.
Proof.
  cbv zeta.
  destruct (emergency_stop_then_resume_keeps_stores
              (snd (Core.initialize (Core.init 0%Z)
                      (spread_init_clock 1730000000123%Z) false))
              (spread_init_clock 1730000009000%Z) true)
    as (_ & _ & _ & _ & _ & _ & _ & _ & _ & H1).
  destruct H1 as (e1 & Hget & Hty & _); [simpl; discriminate..|].
  exists e1. split; assumption.
Defined.

(** C1, as the claim has it, fails.  A core is initialized, stopped by an
    emergency stop and resumed: the recent-events query then returns the three
    foundational events of the first initialization and the three of the
    second, not the empty sequence. *)
Lemma recent_events_not_empty_after_reinitialize :
  let st0 := snd (Core.initialize (Core.init 0%Z)
                    (spread_init_clock 1730000000123%Z) false) in
  let st1 := snd (emergency_stop st0) in
  let st2 := snd (resume_system st1 (spread_init_clock 1730000009000%Z) true) in
  system_status st1 = emergency_stop_status /\
  system_status st2 = active /\
  total_contents st2 = 0%nat /\
  map event_type (Core.recent_events st2 20) =
    [ "identity_formation_start"; "first_awareness"; "initialization";
      "identity_formation_start"; "first_awareness"; "initialization" ]%string /\
  Core.recent_events st2 20 <> [].
Proof. vm_compute. repeat split. discriminate. Qed.

(** * Further properties *)

(** ** The workspace: operations and what they keep *)

Module WorkspaceOps.
Import Workspace WorkspaceState.

(** The calls that reach the workspace, with their clock readings. *)
Inductive Op : Type :=
  | OpInitialize
  | OpAdd (a : Admission)
  | OpQuery (t_now : datetime).

Definition step (w : Workspace.t) (op : Op) : Workspace.t :=
  match op with
  | OpInitialize => snd (Workspace.initialize w)
  | OpAdd a => run_admission w a
  | OpQuery t_now => snd (get_workspace_state w t_now)
  end.

Definition run (w : Workspace.t) (ops : list Op) : Workspace.t :=
  fold_left step ops w.

Inductive reachable : Workspace.t -> Prop :=
  | reachable_init : reachable Workspace.init
  | reachable_step (w : Workspace.t) (op : Op) :
      reachable w -> reachable (step w op).

(** The rank of a level: BACKGROUND < PERIPHERAL < FOCUSED < CONSCIOUS. *)
Definition rank (l : AttentionLevel) : nat :=
  match l with
  | BACKGROUND => 0
  | PERIPHERAL => 1
  | FOCUSED => 2
  | CONSCIOUS => 3
  end.

(** Every focus entry is the id of a stored item, once. *)
Definition focus_well_formed (w : Workspace.t) : Prop :=
  NoDup (attention_focus w) /\
  (forall cid, In cid (attention_focus w) ->
               dict_mem (workspace_contents w) cid = true).

(** Every connection has the strength [initialize] gives. *)
Definition connections_default (w : Workspace.t) : Prop :=
  forall m v, dict_get (module_connections w) m = Some v -> v = 0.8.

(** Every stored item sits under its own id, with a coherence a connection
    strength of 0.5 or 0.8 can give, and with the level its stored priority
    and coherence classify to. *)
Definition contents_consistent (w : Workspace.t) : Prop :=
  forall k c, dict_get (workspace_contents w) k = Some c ->
    content_id c = k /\
    0.25 <= coherence_score c <= 0.9 /\
    attention_level c = _determine_attention_level (priority c) (coherence_score c).

End WorkspaceOps.

Import WorkspaceOps.

(** *** Lists of ids *)

Lemma mem_id_In (x : string) (l : list string) : mem_id x l = true <-> In x l.
Proof.
  unfold mem_id. rewrite existsb_exists. split.
  - intros (y & Hin & Heq). apply String.eqb_eq in Heq. now subst.
  - intros Hin. exists x. split; [exact Hin|apply String.eqb_refl].
Qed.

Lemma remove_first_In (x y : string) (l : list string) :
  In y (remove_first x l) -> In y l.
Proof.
  induction l as [|z l IH]; simpl; [auto|].
  destruct (String.eqb x z); simpl; intuition.
Qed.

Lemma remove_first_NoDup (x : string) (l : list string) :
  NoDup l -> NoDup (remove_first x l) /\ ~ In x (remove_first x l).
Proof.
  induction 1 as [|z l Hz Hl IH]; simpl.
  - split; [constructor|auto].
  - destruct (String.eqb x z) eqn:E.
    + apply String.eqb_eq in E. subst z. split; assumption.
    + apply String.eqb_neq in E. destruct IH as [IH1 IH2]. split.
      * constructor; [|exact IH1]. intros Hin. apply Hz.
        eapply remove_first_In; eassumption.
      * simpl. intros [Heq|Hin]; [congruence|auto].
Qed.

Lemma insert_by_priority_In contents p cid focus x :
  In x (insert_by_priority contents p cid focus) <-> x = cid \/ In x focus.
Proof.
  induction focus as [|e focus IH]; simpl.
  - intuition.
  - destruct (dict_get contents e) as [ec|];
      [destruct (Qgtb p (priority ec))|]; simpl; rewrite ?IH; intuition.
Qed.

Lemma insert_by_priority_NoDup contents p cid focus :
  NoDup focus -> ~ In cid focus ->
  NoDup (insert_by_priority contents p cid focus).
Proof.
  induction 1 as [|e focus He Hf IH]; simpl; intros Hcid.
  - constructor; [auto|constructor].
  - assert (Hrec : NoDup (e :: insert_by_priority contents p cid focus)).
    { constructor; [|apply IH; tauto].
      rewrite insert_by_priority_In. intros [->|Hin]; tauto. }
    assert (Hhere : NoDup (cid :: e :: focus)).
    { constructor; [exact Hcid|]. constructor; assumption. }
    destruct (dict_get contents e) as [ec|];
      [destruct (Qgtb p (priority ec))|]; assumption.
Qed.

Lemma firstn_In_incl {A : Type} (n : nat) (l : list A) (x : A) :
  In x (firstn n l) -> In x l.
Proof.
  revert n. induction l as [|y l IH]; intros [|n]; simpl; try tauto.
  intros [H|H]; [auto|right; eauto].
Qed.

Lemma firstn_NoDup {A : Type} (n : nat) (l : list A) :
  NoDup l -> NoDup (firstn n l).
Proof.
  intros H. revert n. induction H as [|y l Hy Hl IH]; intros [|n]; simpl;
    try constructor; auto.
  intros Hin. apply Hy. eapply firstn_In_incl; eassumption.
Qed.

(** *** Classification *)

Lemma determine_attention_level_cases (p coh : Q) :
  let s := (p + coh) / 2.0 in
  (0.8 < s /\ _determine_attention_level p coh = CONSCIOUS) \/
  (0.6 < s <= 0.8 /\ _determine_attention_level p coh = FOCUSED) \/
  (0.4 < s <= 0.6 /\ _determine_attention_level p coh = PERIPHERAL) \/
  (s <= 0.4 /\ _determine_attention_level p coh = BACKGROUND).
Proof.
  cbv zeta. unfold _determine_attention_level. cbv zeta.
  destruct (Qgtb ((p + coh) / 2.0) 0.8) eqn:E8;
    [apply Qgtb_true in E8; auto|apply Qgtb_false in E8].
  destruct (Qgtb ((p + coh) / 2.0) 0.6) eqn:E6;
    [apply Qgtb_true in E6; auto|apply Qgtb_false in E6].
  destruct (Qgtb ((p + coh) / 2.0) 0.4) eqn:E4;
    [apply Qgtb_true in E4; auto 6|apply Qgtb_false in E4; auto 6].
Qed.

(** X1.  The classification is monotone in the combined score: a pair whose
    priority and coherence sum to at least as much gets a level of at least
    the same rank, the levels ordered Background, Peripheral, Focused,
    Conscious. *)
Theorem determine_attention_level_monotone (p coh p' coh' : Q) :
  p + coh <= p' + coh' ->
  (rank (_determine_attention_level p coh) <=
   rank (_determine_attention_level p' coh'))%nat.
Proof.
  intros Hle.
  assert (Hs : (p + coh) / 2.0 <= (p' + coh') / 2.0).
  { apply Qle_shift_div_l; [reflexivity|].
    assert (E : (p + coh) / 2.0 * 2.0 == p + coh) by (field; discriminate).
    lra. }
  destruct (determine_attention_level_cases p coh) as [[H ->]|[[H ->]|[[H ->]|[H ->]]]];
    destruct (determine_attention_level_cases p' coh')
      as [[H' ->]|[[H' ->]|[[H' ->]|[H' ->]]]];
    simpl; try lia; exfalso; lra.
Qed.

Lemma determine_attention_level_monotone_witness :
  (rank (_determine_attention_level 0.5 0.3) <=
   rank (_determine_attention_level 0.9 0.75))%nat.
Proof.
  apply (determine_attention_level_monotone 0.5 0.3 0.9 0.75). discriminate.
Defined.

(** *** What one operation keeps *)

Lemma query_keeps_stores (w : Workspace.t) (t_now : datetime) :
  workspace_contents (snd (get_workspace_state w t_now)) = workspace_contents w /\
  attention_focus (snd (get_workspace_state w t_now)) = attention_focus w /\
  module_connections (snd (get_workspace_state w t_now)) = module_connections w /\
  Workspace.initialized (snd (get_workspace_state w t_now)) = Workspace.initialized w.
Proof.
  unfold get_workspace_state.
  destruct (negb (Workspace.initialized w)); cbn [snd]; [repeat split|].
  unfold _update_consciousness_metrics.
  destruct (workspace_contents w) eqn:E;
    cbn [snd workspace_contents attention_focus module_connections
         Workspace.initialized];
    rewrite ?E; repeat split.
Qed.

Lemma set_default_connections (ms : list string) (mc : dict Q) :
  (forall m v, dict_get mc m = Some v -> v = 0.8) ->
  forall m v,
    dict_get (fold_left (fun mc module => dict_set mc module 0.8) ms mc) m = Some v ->
    v = 0.8.
Proof.
  revert mc. induction ms as [|m0 ms IH]; intros mc Hmc; simpl; [exact Hmc|].
  apply IH. intros m v.
  destruct (string_dec m m0) as [->|Hne].
  - rewrite dict_get_set_same. now intros [= <-].
  - rewrite dict_get_set_other by exact Hne. apply Hmc.
Qed.

Lemma Qlen_nonneg {A : Type} (l : list A) : 0 <= Qlen l.
Proof.
  unfold Qlen. change 0 with (inject_Z 0). rewrite <- Zle_Qle. lia.
Qed.

(** The coherence of new content lies between 0.25 and 0.9 when every
    connection has the default strength. *)
Lemma calculate_coherence_range (w : Workspace.t) (data : Payload) (sm : string) :
  connections_default w ->
  0.25 <= _calculate_coherence w data sm <= 0.9.
Proof.
  intros Hc. unfold _calculate_coherence. cbv zeta.
  assert (Hr0 : 0 <= min1 (Qlen data / 10.0)).
  { apply min1_nonneg. apply Qle_shift_div_l; [reflexivity|].
    rewrite Qmult_0_l. apply Qlen_nonneg. }
  assert (Hr1 : min1 (Qlen data / 10.0) <= 1) by apply min1_le_1.
  assert (Hs : 0.5 <= dict_get_default (module_connections w) sm 0.5 <= 0.8).
  { unfold dict_get_default.
    destruct (dict_get (module_connections w) sm) as [v|] eqn:E.
    - rewrite (Hc sm v E). split; discriminate.
    - split; discriminate. }
  set (r := min1 (Qlen data / 10.0)) in *.
  set (s := dict_get_default (module_connections w) sm 0.5) in *.
  split.
  - apply Qle_shift_div_l; [reflexivity|]. lra.
  - apply Qle_shift_div_r; [reflexivity|]. lra.
Qed.

Lemma add_content_focus_eq (w : Workspace.t) (c : Clock) (sm ct : string)
    (data : Payload) (p : Q) :
  attention_focus (snd (add_content w c sm ct data p)) =
  firstn 50
    (match _determine_attention_level p (_calculate_coherence w data sm) with
     | CONSCIOUS => make_content_id c :: remove_first (make_content_id c) (attention_focus w)
     | _ => insert_by_priority
              (workspace_contents (snd (add_content w c sm ct data p))) p
              (make_content_id c)
              (remove_first (make_content_id c) (attention_focus w))
     end).
Proof.
  rewrite add_content_contents. unfold add_content. cbv zeta. unfold snd.
  erewrite update_attention_focus_focus
    by (cbn [workspace_contents]; apply dict_get_set_same).
  reflexivity.
Qed.

Lemma add_content_connections (w : Workspace.t) (c : Clock) (sm ct : string)
    (data : Payload) (p : Q) :
  module_connections (snd (add_content w c sm ct data p)) = module_connections w.
Proof.
  unfold add_content. cbv zeta. unfold snd.
  now rewrite update_attention_focus_connections.
Qed.

Lemma add_content_focus_well_formed w c sm ct data p :
  focus_well_formed w ->
  focus_well_formed (snd (add_content w c sm ct data p)).
Proof.
  intros [Hnd Hkeys]. unfold focus_well_formed.
  rewrite add_content_focus_eq.
  destruct (remove_first_NoDup (make_content_id c) _ Hnd) as [Hnd1 Hnot].
  set (focus1 := remove_first (make_content_id c) (attention_focus w)) in *.
  set (w' := snd (add_content w c sm ct data p)).
  assert (Hall : forall l,
            (forall x, In x l -> x = make_content_id c \/ In x focus1) ->
            forall cid, In cid (firstn 50 l) ->
                        dict_mem (workspace_contents w') cid = true).
  { intros l Hl cid Hin. apply firstn_In_incl in Hin.
    subst w'. rewrite add_content_contents.
    destruct (Hl cid Hin) as [->|Hin1].
    - unfold dict_mem. now rewrite dict_get_set_same.
    - apply dict_set_keeps_keys, Hkeys.
      eapply remove_first_In; eassumption. }
  assert (Hcons : NoDup (make_content_id c :: focus1)) by (constructor; assumption).
  assert (Hins : NoDup (insert_by_priority (workspace_contents w') p
                          (make_content_id c) focus1))
    by (apply insert_by_priority_NoDup; assumption).
  destruct (_determine_attention_level p (_calculate_coherence w data sm));
    (split; [apply firstn_NoDup; assumption|]);
    apply Hall; intros x Hx;
    try (apply insert_by_priority_In in Hx; exact Hx);
    destruct Hx; auto.
Qed.

Lemma add_content_contents_consistent w c sm ct data p :
  connections_default w -> contents_consistent w ->
  contents_consistent (snd (add_content w c sm ct data p)).
Proof.
  intros Hc Hw k x. rewrite add_content_contents.
  destruct (string_dec k (make_content_id c)) as [->|Hne].
  - rewrite dict_get_set_same. intros [= <-].
    unfold admitted_content. cbn [content_id coherence_score attention_level priority].
    repeat split; apply (calculate_coherence_range w data sm Hc).
  - rewrite dict_get_set_other by exact Hne. apply Hw.
Qed.

Lemma step_keeps_invariants (w : Workspace.t) (op : Op) :
  focus_well_formed w /\ connections_default w /\ contents_consistent w ->
  focus_well_formed (step w op) /\ connections_default (step w op) /\
  contents_consistent (step w op).
Proof.
  intros (Hf & Hc & Hw). destruct op as [|a|t_now]; cbn [step].
  - unfold Workspace.initialize, _initialize_module_connections. cbv zeta.
    unfold focus_well_formed, connections_default, contents_consistent.
    cbn [snd workspace_contents attention_focus module_connections].
    split; [exact Hf|]. split; [|exact Hw].
    apply set_default_connections. exact Hc.
  - unfold run_admission. split; [|split].
    + now apply add_content_focus_well_formed.
    + unfold connections_default. rewrite add_content_connections. exact Hc.
    + now apply add_content_contents_consistent.
  - destruct (query_keeps_stores w t_now) as (E1 & E2 & E3 & _).
    unfold focus_well_formed, connections_default, contents_consistent.
    rewrite E1, E2, E3. split; [exact Hf|]. split; assumption.
Qed.

Lemma reachable_invariants (w : Workspace.t) :
  reachable w ->
  focus_well_formed w /\ connections_default w /\ contents_consistent w.
Proof.
  induction 1 as [|w op Hr IH].
  - repeat split; simpl; try constructor; try tauto; try discriminate.
  - now apply step_keeps_invariants.
Qed.

(** A workspace three operations reach: initialized, then two admissions. *)
Definition sample_workspace : Workspace.t :=
  run Workspace.init
    [ OpInitialize;
      OpAdd (mkAdmission (mkClock 1730000000123%Z 1730000000123456%Z)
               "temporal_consciousness" "event" seven_keys 0.9);
      OpAdd (mkAdmission (mkClock 1730000000456%Z 1730000000456789%Z)
               "moduleB" "signal" [] 1.0) ].

Lemma sample_workspace_reachable : reachable sample_workspace.
Proof.
  unfold sample_workspace, run. cbn [fold_left].
  repeat apply reachable_step. apply reachable_init.
Qed.

(** X2.  In every workspace the operations reach, the focus ordering has no
    id twice and every id in it is the id of an item the workspace holds. *)
Theorem focus_entries_distinct_and_stored (w : Workspace.t) :
  reachable w ->
  NoDup (attention_focus w) /\
  (forall cid, In cid (attention_focus w) ->
     exists content, dict_get (workspace_contents w) cid = Some content).
Proof.
  intros Hr. destruct (reachable_invariants w Hr) as ([Hnd Hkeys] & _).
  split; [exact Hnd|]. intros cid Hin. specialize (Hkeys cid Hin).
  unfold dict_mem in Hkeys.
  destruct (dict_get (workspace_contents w) cid) as [content|];
    [now exists content|discriminate].
Qed.

Lemma focus_entries_distinct_and_stored_witness :
  NoDup (attention_focus sample_workspace).
Proof.
  apply (focus_entries_distinct_and_stored sample_workspace).
  apply sample_workspace_reachable.
Defined.


(** X4.  In every workspace the operations reach, the coherence of a stored
    item lies between 0.25 and 0.9, so an item is Conscious only if its
    priority is above 0.7, and an item of priority at most -0.1 is
    Background. *)
Theorem conscious_needs_priority_above_07 (w : Workspace.t) (k : string)
    (content : WorkspaceContent) :
  reachable w ->
  dict_get (workspace_contents w) k = Some content ->
  0.25 <= coherence_score content <= 0.9 /\
  (attention_level content = CONSCIOUS -> 0.7 < priority content) /\
  (priority content <= -0.1 -> attention_level content = BACKGROUND).
Proof.
  intros Hr Hget. destruct (reachable_invariants w Hr) as (_ & _ & Hw).
  destruct (Hw k content Hget) as (_ & Hcoh & Hl).
  split; [exact Hcoh|].
  assert (E : (priority content + coherence_score content) / 2.0 * 2.0
              == priority content + coherence_score content)
    by (field; discriminate).
  destruct (determine_attention_level_cases (priority content) (coherence_score content))
    as [[H Hc]|[[H Hc]|[[H Hc]|[H Hc]]]];
    rewrite Hl, Hc; (split; [intros Hlev|intros Hp]);
    try discriminate; try reflexivity; try (exfalso; nra); nra.
Qed.


Lemma conscious_needs_priority_above_07_witness :
  exists content,
    dict_get (workspace_contents sample_workspace) "content_1730000000123" = Some content /\
    0.25 <= coherence_score content <= 0.9.
Proof.
  destruct (dict_get (workspace_contents sample_workspace) "content_1730000000123")
    as [content|] eqn:Hget.
  - exists content. split; [reflexivity|].
    apply (conscious_needs_priority_above_07 sample_workspace
             "content_1730000000123" content sample_workspace_reachable Hget).
  - vm_compute in Hget. discriminate.
Defined.

(** *** Admissions at different milliseconds *)

Definition admission_id (a : Admission) : string := make_content_id (adm_clock a).

Lemma run_admission_contents (w : Workspace.t) (a : Admission) :
  workspace_contents (run_admission w a) =
  dict_set (workspace_contents w) (admission_id a)
    (admitted_content w (adm_clock a) (adm_source_module a) (adm_content_type a)
       (adm_data a) (adm_priority a)).
Proof. unfold run_admission. apply add_content_contents. Qed.

(** Admissions under other ids leave the item under an id as it is. *)
Lemma run_admissions_get_other (l : list Admission) (w : Workspace.t) (k : string) :
  (forall a, In a l -> admission_id a <> k) ->
  dict_get (workspace_contents (run_admissions w l)) k =
  dict_get (workspace_contents w) k.
Proof.
  revert w. induction l as [|a l IH]; intros w Hl; simpl; [reflexivity|].
  rewrite IH by (intros b Hb; apply Hl; now right).
  rewrite run_admission_contents.
  apply dict_get_set_other. intros ->. now apply (Hl a); [left|].
Qed.

Lemma run_admissions_length_fresh (l : list Admission) (w : Workspace.t) :
  NoDup (map admission_id l) ->
  (forall a, In a l -> dict_mem (workspace_contents w) (admission_id a) = false) ->
  List.length (workspace_contents (run_admissions w l)) =
  (List.length (workspace_contents w) + List.length l)%nat.
Proof.
  revert w. induction l as [|a l IH]; intros w Hnd Hfresh; simpl; [lia|].
  inversion Hnd as [|? ? Ha Hl]; subst.
  rewrite IH; [| exact Hl |].
  - rewrite run_admission_contents, dict_set_length_absent; [lia|].
    apply Hfresh. now left.
  - intros b Hb. rewrite run_admission_contents. unfold dict_mem.
    rewrite dict_get_set_other.
    + apply Hfresh. now right.
    + intros Heq. apply Ha. rewrite <- Heq. now apply in_map.
Qed.

Lemma admission_ids_NoDup (l : list Admission) :
  NoDup (map (fun a => time_ms (adm_clock a)) l) -> NoDup (map admission_id l).
Proof.
  induction l as [|a l IH]; simpl; intros H; [constructor|].
  inversion H as [|? ? Ha Hl]; subst. constructor; [|auto].
  rewrite in_map_iff. intros (b & Heq & Hb). apply Ha.
  apply make_content_id_inj in Heq. rewrite <- Heq.
  apply (in_map (fun a => time_ms (adm_clock a))). exact Hb.
Qed.

(** X5.  When the admissions of a sequence read pairwise different
    milliseconds from the clock, none overwrites another: from the empty
    workspace the workspace ends with as many items as there were admissions,
    and each admission's item is stored under its id with the producer, kind,
    payload and priority it was admitted with. *)
Theorem distinct_milliseconds_keep_every_item (l : list Admission) :
  NoDup (map (fun a => time_ms (adm_clock a)) l) ->
  List.length (workspace_contents (run_admissions Workspace.init l)) = List.length l /\
  (forall a, In a l ->
     exists content,
       dict_get (workspace_contents (run_admissions Workspace.init l))
                (make_content_id (adm_clock a)) = Some content /\
       source_module content = adm_source_module a /\
       content_type content = adm_content_type a /\
       data content = adm_data a /\
       priority content = adm_priority a /\
       timestamp content = now (adm_clock a)).
Proof.
  intros Hms. pose proof (admission_ids_NoDup l Hms) as Hnd. split.
  - rewrite run_admissions_length_fresh; [reflexivity|exact Hnd|].
    intros a _. reflexivity.
  - intros a Hin. change (make_content_id (adm_clock a)) with (admission_id a).
    revert a Hin. generalize Workspace.init as w. clear Hms.
    induction l as [|b l IH]; intros w a Hin; [destruct Hin|].
    inversion Hnd as [|? ? Hb Hl]; subst. simpl.
    destruct Hin as [Heq|Hin]; [subst b|now apply IH].
    rewrite run_admissions_get_other.
    + rewrite run_admission_contents, dict_get_set_same.
      eexists. split; [reflexivity|]. repeat split.
    + intros b Hb' Heq. apply Hb. rewrite <- Heq. now apply in_map.
Qed.

Lemma distinct_milliseconds_keep_every_item_witness :
  List.length
    (workspace_contents
       (run_admissions Workspace.init
          [ mkAdmission (mkClock 1730000000123%Z 1730000000123456%Z)
              "moduleA" "event" [("x"%string, PyInt 1)] 0.9;
            mkAdmission (mkClock 1730000000124%Z 1730000000124001%Z)
              "moduleB" "signal" [] 0.2 ])) = 2%nat.
Proof.
  apply (distinct_milliseconds_keep_every_item
           [ mkAdmission (mkClock 1730000000123%Z 1730000000123456%Z)
               "moduleA" "event" [("x"%string, PyInt 1)] 0.9;
             mkAdmission (mkClock 1730000000124%Z 1730000000124001%Z)
               "moduleB" "signal" [] 0.2 ]).
  simpl. repeat constructor; simpl; intuition discriminate.
Defined.

(** ** The snapshot *)

(** The items of a list, level by level, are all its items. *)
Lemma levels_partition (l : list WorkspaceContent) :
  list_sum
    (map (fun level =>
            List.length
              (filter (fun c => if AttentionLevel_eq_dec (attention_level c) level
                                then true else false) l))
         levels)
  = List.length l.
Proof.
  unfold levels, list_sum. cbn [map fold_right].
  induction l as [|c l IH]; [reflexivity|].
  cbn [filter List.length].
  destruct (attention_level c);
    repeat match goal with
    | |- context [AttentionLevel_eq_dec ?a ?b] =>
        destruct (AttentionLevel_eq_dec a b); try congruence
    end; cbn [List.length]; lia.
Qed.

(** The items of one level, summarized, in the order the workspace holds
    them. *)
Definition level_group (w : Workspace.t) (level : AttentionLevel)
    : list ContentSummary :=
  map summarize
      (filter (fun c => if AttentionLevel_eq_dec (attention_level c) level
                        then true else false)
              (dict_values (workspace_contents w))).

(** X6.  The snapshot of a workspace that is not initialized is the error and
    changes nothing.  The snapshot of an initialized workspace leaves the items
    and the ordering as they are and groups the items by level: there is one
    group for each level, every stored item is listed in the group of its own
    level, every entry of a group is a stored item of that group's level, and
    the group sizes add up to the number of stored items, which is the total
    the snapshot reports. *)
Theorem snapshot_reports_the_stores (w : Workspace.t) (t_now : datetime) :
  (Workspace.initialized w = false ->
   get_workspace_state w t_now =
     (WorkspaceState.Error "Global workspace system not initialized", w)) /\
  (Workspace.initialized w = true ->
   workspace_contents (snd (get_workspace_state w t_now)) = workspace_contents w /\
   attention_focus (snd (get_workspace_state w t_now)) = attention_focus w /\
   exists snap,
     fst (get_workspace_state w t_now) = WorkspaceState.State snap /\
     snap_total_contents snap = List.length (workspace_contents w) /\
     map fst (snap_contents_by_attention snap) = levels /\
     (forall c, In c (dict_values (workspace_contents w)) ->
        exists g, In (attention_level c, g) (snap_contents_by_attention snap) /\
                  In (summarize c) g) /\
     (forall level g s, In (level, g) (snap_contents_by_attention snap) ->
        In s g ->
        exists c, In c (dict_values (workspace_contents w)) /\
                  attention_level c = level /\ summarize c = s) /\
     list_sum (map (fun g => List.length (snd g)) (snap_contents_by_attention snap))
       = List.length (workspace_contents w) /\
     snap_attention_focus snap = firstn 10 (attention_focus w) /\
     (List.length (snap_attention_focus snap) <= 10)%nat /\
     snap_module_connections snap = module_connections w).
Proof.
  split; intros Hinit.
  - unfold get_workspace_state. now rewrite Hinit.
  - destruct (query_keeps_stores w t_now) as (E1 & E2 & E3 & _).
    split; [exact E1|]. split; [exact E2|].
    revert E1 E2 E3. unfold get_workspace_state. rewrite Hinit. cbn [negb fst snd].
    intros E1 E2 E3. eexists. split; [reflexivity|].
    cbn [snap_total_contents snap_contents_by_attention snap_attention_focus
         snap_module_connections].
    rewrite E1, E2, E3. fold (level_group w).
    split; [reflexivity|]. split; [reflexivity|].
    split; [|split; [|split]].
    + intros c Hc. exists (level_group w (attention_level c)). split.
      * apply (in_map (fun l => (l, level_group w l))).
        unfold levels. destruct (attention_level c); simpl; tauto.
      * unfold level_group. apply in_map. apply filter_In. split; [exact Hc|].
        destruct (AttentionLevel_eq_dec (attention_level c) (attention_level c));
          congruence.
    + intros level g s Hg Hs. apply in_map_iff in Hg.
      destruct Hg as (l & [= <- <-] & _). unfold level_group in Hs.
      apply in_map_iff in Hs. destruct Hs as (c & Hsum & Hin).
      apply filter_In in Hin. destruct Hin as [Hin Hl].
      exists c. split; [exact Hin|]. split; [|exact Hsum].
      destruct (AttentionLevel_eq_dec (attention_level c) l);
        [assumption|discriminate].
    + rewrite map_map. cbn [snd].
      replace (List.length (workspace_contents w))
        with (List.length (dict_values (workspace_contents w)))
        by (unfold dict_values; apply length_map).
      rewrite <- (levels_partition (dict_values (workspace_contents w))).
      f_equal. apply map_ext. intros level. apply length_map.
    + split; [reflexivity|]. split; [apply firstn_le_length|reflexivity].
Qed.

Lemma snapshot_reports_the_stores_witness :
  exists snap,
    fst (get_workspace_state sample_workspace 1730000001000000%Z)
      = WorkspaceState.State snap /\
    snap_total_contents snap = List.length (workspace_contents sample_workspace).
Proof.
  destruct (snapshot_reports_the_stores sample_workspace 1730000001000000%Z)
    as [_ H].
  destruct (H eq_refl) as (_ & _ & snap & Hs & Ht & _).
  exists snap. split; assumption.
Defined.

(** ** Metrics: their ranges *)

Lemma Qlen_cons {A : Type} (x : A) (l : list A) : Qlen (x :: l) == Qlen l + 1.
Proof.
  unfold Qlen. cbn [List.length]. rewrite Nat2Z.inj_succ, <- Z.add_1_r.
  now rewrite inject_Z_plus.
Qed.

Lemma Qlen_pos {A : Type} (x : A) (l : list A) : 0 < Qlen (x :: l).
Proof. rewrite Qlen_cons. pose proof (Qlen_nonneg l). lra. Qed.

Lemma fold_Qplus_bounds (a b : Q) (xs : list Q) (acc : Q) :
  (forall x, In x xs -> a <= x <= b) ->
  acc + a * Qlen xs <= fold_left Qplus xs acc <= acc + b * Qlen xs.
Proof.
  revert acc. induction xs as [|x xs IH]; intros acc Hxs.
  - simpl. unfold Qlen. simpl. split; ring_simplify; apply Qle_refl.
  - cbn [fold_left]. rewrite Qlen_cons.
    destruct (IH (acc + x)) as [IH1 IH2]; [intros y Hy; apply Hxs; now right|].
    destruct (Hxs x) as [Hx1 Hx2]; [now left|].
    split; [eapply Qle_trans; [|exact IH1]|eapply Qle_trans; [exact IH2|]]; lra.
Qed.

(** The mean of numbers between [a] and [b] lies between [a] and [b]. *)
Lemma mean_bounds (a b : Q) (x : Q) (xs : list Q) :
  (forall y, In y (x :: xs) -> a <= y <= b) ->
  a <= WorkspaceState.Qsum (x :: xs) / Qlen (x :: xs) <= b.
Proof.
  intros H. unfold WorkspaceState.Qsum.
  destruct (fold_Qplus_bounds a b (x :: xs) 0 H) as [H1 H2].
  pose proof (Qlen_pos x xs) as Hpos.
  split.
  - apply Qle_shift_div_l; [exact Hpos|]. lra.
  - apply Qle_shift_div_r; [exact Hpos|]. lra.
Qed.

Lemma min1_of_count_range (n : nat) (d : Q) :
  0 < d -> 0 <= min1 (inject_Z (Z.of_nat n) / d) <= 1.
Proof.
  intros Hd. split; [|apply min1_le_1].
  apply min1_nonneg. apply Qle_shift_div_l; [exact Hd|].
  rewrite Qmult_0_l. change 0 with (inject_Z 0). rewrite <- Zle_Qle. lia.
Qed.

(** The ranges of the four metrics. *)
Definition metrics_in_range (m : Workspace.Metrics) : Prop :=
  0 <= coherence_level m <= 0.9 /\
  0 <= integration_depth m <= 1 /\
  attention_stability m <= 1 /\
  0 <= content_richness m <= 1.

Definition values_coherent (w : Workspace.t) : Prop :=
  forall c, In c (dict_values (workspace_contents w)) ->
            0.25 <= coherence_score c <= 0.9.

Lemma update_metrics_in_range (w : Workspace.t) (t_now : datetime) :
  values_coherent w ->
  metrics_in_range (consciousness_metrics w) ->
  metrics_in_range (consciousness_metrics (_update_consciousness_metrics w t_now)).
Proof.
  intros Hv (Hc & Hi & Ha & Hr). unfold _update_consciousness_metrics.
  destruct (workspace_contents w) as [|kv d] eqn:E; [repeat split; tauto|].
  cbn [consciousness_metrics]. unfold metrics_in_range.
  cbn [coherence_level integration_depth attention_stability content_richness].
  split; [|split; [|split]].
  - destruct (filter (fun c => is_conscious (attention_level c))
                (dict_values (kv :: d))) as [|c cs] eqn:F; [exact Hc|].
    assert (Hall : forall y, In y (map coherence_score (c :: cs)) ->
                             0.25 <= y <= 0.9).
    { intros y Hy. apply in_map_iff in Hy. destruct Hy as (c' & <- & Hin).
      apply Hv. rewrite E. rewrite <- F in Hin.
      apply filter_In in Hin. tauto. }
    cbn [map] in Hall.
    pose proof (mean_bounds 0.25 0.9 _ _ Hall) as Hm.
    replace (Qlen (c :: cs)) with (Qlen (coherence_score c :: map coherence_score cs))
      by (unfold Qlen; cbn [List.length]; now rewrite length_map).
    cbn [map]. lra.
  - apply min1_of_count_range. reflexivity.
  - destruct (attention_focus w); [exact Ha|apply min1_le_1].
  - apply min1_of_count_range. reflexivity.
Qed.

Lemma add_content_metrics w c sm ct data p :
  consciousness_metrics (snd (add_content w c sm ct data p)) = consciousness_metrics w.
Proof.
  unfold add_content. cbv zeta. unfold snd, _update_attention_focus.
  cbn [workspace_contents]. now rewrite dict_get_set_same.
Qed.

Lemma step_keeps_metrics (w : Workspace.t) (op : Op) :
  connections_default w ->
  values_coherent w /\ metrics_in_range (consciousness_metrics w) ->
  values_coherent (step w op) /\ metrics_in_range (consciousness_metrics (step w op)).
Proof.
  intros Hc (Hv & Hm). destruct op as [|a|t_now]; cbn [step].
  - split; assumption.
  - unfold run_admission. rewrite add_content_metrics. split; [|exact Hm].
    intros x. rewrite add_content_contents. intros Hin.
    apply dict_set_values in Hin. destruct Hin as [->|Hin]; [|now apply Hv].
    apply (calculate_coherence_range w _ _ Hc).
  - unfold get_workspace_state.
    destruct (negb (Workspace.initialized w)); cbn [snd]; [split; assumption|].
    split; [|now apply update_metrics_in_range].
    unfold values_coherent, _update_consciousness_metrics.
    destruct (workspace_contents w) eqn:E; cbn [workspace_contents];
      rewrite ?E; intros x Hx; apply Hv; now rewrite E.
Qed.

Lemma reachable_metrics (w : Workspace.t) :
  reachable w -> values_coherent w /\ metrics_in_range (consciousness_metrics w).
Proof.
  induction 1 as [|w op Hr IH].
  - split; [intros c []|]. unfold metrics_in_range. simpl.
    repeat split; discriminate.
  - apply step_keeps_metrics; [|exact IH].
    now destruct (reachable_invariants w Hr) as (_ & Hc & _).
Qed.

(** X7.  Every snapshot of a workspace the operations reach reports a
    coherence level, an integration depth and a content richness between 0 and
    1, and an attention stability of at most 1.  (The coherence level is a mean
    of coherence scores, which are at most 0.9; the statement leaves the room
    up to 1 that the rounding of a floating-point mean needs.) *)
Theorem snapshot_metrics_in_range (w : Workspace.t) (t_now : datetime)
    (snap : WorkspaceState.Snapshot) :
  reachable w ->
  fst (get_workspace_state w t_now) = WorkspaceState.State snap ->
  0 <= coherence_level (snap_consciousness_metrics snap) <= 1 /\
  0 <= integration_depth (snap_consciousness_metrics snap) <= 1 /\
  attention_stability (snap_consciousness_metrics snap) <= 1 /\
  0 <= content_richness (snap_consciousness_metrics snap) <= 1.
Proof.
  intros Hr Hs.
  destruct (reachable_metrics _ (reachable_step w (OpQuery t_now) Hr)) as [_ Hm].
  cbn [step] in Hm. revert Hs Hm. unfold get_workspace_state.
  destruct (negb (Workspace.initialized w)); cbn [fst snd]; [discriminate|].
  intros [= <-]. cbn [snap_consciousness_metrics].
  intros ([Hc0 Hc1] & Hi & Ha & Hr'). repeat split; try tauto. lra.
Qed.

Lemma snapshot_metrics_in_range_witness :
  exists snap,
    fst (get_workspace_state sample_workspace 1730000001000000%Z)
      = WorkspaceState.State snap /\
    0 <= coherence_level (snap_consciousness_metrics snap) <= 1.
Proof.
  eexists. split; [reflexivity|].
  eapply (snapshot_metrics_in_range sample_workspace 1730000001000000%Z);
    [apply sample_workspace_reachable|reflexivity].
Defined.
